(** * graphviz.backend.rendering: command construction and orchestration

    A shallow embedding of [graphviz/backend/rendering.py]: the command
    builder [command] and the five entry points [render], [pipe],
    [pipe_string], [pipe_lines] and [pipe_lines_string], together with the
    properties of the accompanying specification. *)

From Stdlib Require Import ZArith Ascii.
From Stdlib Require String.
From stdpp Require Import base decidable option list gmap strings.

Local Open Scope Z_scope.

(** ** Python values used by the module *)

(** [bytes] objects. *)
Abbreviation bytes := (list Byte.byte).

(** A value that is either [bytes] or [str]: the standard input handed to the
    subprocess and its captured standard output have either type, depending
    on whether an encoding is given. *)
Inductive pyval :=
| PyBytes (b : bytes)
| PyStr (s : string).

(** An element of a [subprocess.Popen] argument list:
    [typing.Union[os.PathLike, str]]. *)
Inductive arg :=
| Path (p : string)
| Str (s : string).

(** The exceptions named in the module's docstrings. [RequiredArgumentError]
    and [ValueError] are raised by [command] itself; the others come out of
    the subprocess runner. *)
Inductive exception :=
| RequiredArgumentError (msg : string)
| ValueError (msg : string)
| ExecutableNotFound (args : list arg)
| CalledProcessError (returncode : Z) (args : list arg) (stderr : pyval)
| UnicodeError (msg : string)
| OtherError (msg : string).

(** The result of running a Python function: it returns or it raises. *)
Inductive outcome (A : Type) :=
| Return (a : A)
| Raise (e : exception).
Arguments Return {A} a.
Arguments Raise {A} e.

(** Sequencing of computations that may raise. *)
Global Instance outcome_ret : MRet outcome := @Return.
Global Instance outcome_bind : MBind outcome := λ A B k m,
  match m with
  | Return a => k a
  | Raise e => Raise e
  end.

(** [if cond: raise e] *)
Definition raise_if (cond : bool) (e : exception) : outcome () :=
  if cond then Raise e else Return ().

(** [x is not None] and [x is None] *)
Definition is_not_None {A} (x : option A) : bool :=
  match x with Some _ => true | None => false end.
Definition is_None {A} (x : option A) : bool :=
  match x with Some _ => false | None => true end.

(** ** String helpers: [str.join], [str.startswith], [str.endswith], ... *)

Module Py.

(** [sep.join(l)] *)
Fixpoint join (sep : string) (l : list string) : string :=
  match l with
  | [] => ""
  | [x] => x
  | x :: xs => x +:+ sep +:+ join sep xs
  end.

(** [bool(s)] for a string: non-empty. *)
Definition truthy (s : string) : bool :=
  match s with
  | EmptyString => false
  | String _ _ => true
  end.

(** [s.startswith(c)] for a one-character [c]. *)
Definition startswith (c : ascii) (s : string) : bool :=
  match s with
  | EmptyString => false
  | String a _ => Ascii.eqb a c
  end.

(** [s.endswith(c)] for a one-character [c]. *)
Fixpoint endswith (c : ascii) (s : string) : bool :=
  match s with
  | EmptyString => false
  | String a EmptyString => Ascii.eqb a c
  | String _ r => endswith c r
  end.

(** [s.rfind(c)]: the highest index of [c] in [s], or [-1]. *)
Fixpoint rfind (c : ascii) (s : string) : Z :=
  match s with
  | EmptyString => -1
  | String a r =>
      let i := rfind c r in
      if 0 <=? i then i + 1
      else if Ascii.eqb a c then 0 else -1
  end.

(** [s[:i]] and [s[i:]] for [0 <= i]. *)
Definition slice_to (i : Z) (s : string) : string :=
  String.substring 0 (Z.to_nat i) s.
Definition slice_from (i : Z) (s : string) : string :=
  String.substring (Z.to_nat i) (String.length s - Z.to_nat i) s.

(** [s == c * len(s)] *)
Fixpoint all_char (c : ascii) (s : string) : bool :=
  match s with
  | EmptyString => true
  | String a r => Ascii.eqb a c && all_char c r
  end.

(** [s.rstrip(c)] for a one-character [c]. *)
Fixpoint rstrip (c : ascii) (s : string) : string :=
  match s with
  | EmptyString => EmptyString
  | String a r =>
      let r' := rstrip c r in
      if Ascii.eqb a c && negb (truthy r') then EmptyString else String a r'
  end.

(** [c in s] for a one-character [c]. *)
Fixpoint contains (c : ascii) (s : string) : bool :=
  match s with
  | EmptyString => false
  | String a r => Ascii.eqb a c || contains c r
  end.

End Py.

(** ** [os.path] (POSIX flavour) *)

Module os_path.

Definition sep : ascii := "/"%char.

(** [os.path.split(p)]: everything up to the last slash, and what follows
    it; trailing slashes are stripped from the head unless it consists of
    slashes only. *)
Definition split (p : string) : string * string :=
  let i := Py.rfind sep p + 1 in
  let head := Py.slice_to i p in
  let tail := Py.slice_from i p in
  let head :=
    if Py.truthy head && negb (Py.all_char sep head)
    then Py.rstrip sep head else head in
  (head, tail).

(** [os.path.join(a, b)] *)
Definition join (a b : string) : string :=
  if Py.startswith sep b then b
  else if negb (Py.truthy a) || Py.endswith sep a then a +:+ b
  else a +:+ String sep b.

End os_path.

(** ** The capability registry and the built-ins

    [ENGINES], [FORMATS], [RENDERERS] and [FORMATTERS] are imported from
    [graphviz.backend.common]; the module only tests membership in them.
    They are taken as parameters, and so is the built-in [repr] on strings
    that formats the offending value of an error message. *)

Class Common := {
  ENGINES : gset string;
  FORMATS : gset string;
  RENDERERS : gset string;
  FORMATTERS : gset string;
}.

Class Builtins := {
  repr : string → string;
}.

(** One registry is contained in another. *)
Definition Common_subseteq (C C' : Common) : Prop :=
  @ENGINES C ⊆ @ENGINES C' ∧ @FORMATS C ⊆ @FORMATS C' ∧
  @RENDERERS C ⊆ @RENDERERS C' ∧ @FORMATTERS C ⊆ @FORMATTERS C'.

(** [DOT_BINARY = pathlib.Path('dot')] *)
Definition DOT_BINARY : arg := Path "dot".

Section command.
Context `{Common} `{Builtins}.

(** [[f for f in (format_, renderer, formatter) if f is not None]] *)
Definition output_format (format_ : string) (renderer formatter : option string)
  : list string :=
  omap id [Some format_; renderer; formatter].

(** [command(engine, format_, *, renderer=None, formatter=None)]:
    the [subprocess.Popen] argument list for rendering. *)
Definition command (engine format_ : string) (renderer formatter : option string)
  : outcome (list arg) :=
  raise_if (is_not_None formatter && is_None renderer)
    (RequiredArgumentError "formatter given without renderer") ;;
  raise_if (bool_decide (engine ∉ ENGINES))
    (ValueError ("unknown engine: " +:+ repr engine)) ;;
  raise_if (bool_decide (format_ ∉ FORMATS))
    (ValueError ("unknown format: " +:+ repr format_)) ;;
  match renderer with
  | Some r => raise_if (bool_decide (r ∉ RENDERERS))
                (ValueError ("unknown renderer: " +:+ repr r))
  | None => Return ()
  end ;;
  match formatter with
  | Some f => raise_if (bool_decide (f ∉ FORMATTERS))
                (ValueError ("unknown formatter: " +:+ repr f))
  | None => Return ()
  end ;;
  let output_format_flag := Py.join ":" (output_format format_ renderer formatter) in
  Return [DOT_BINARY; Str ("-K" +:+ engine); Str ("-T" +:+ output_format_flag)].

(** The elements that [render] joins with ["."]:
    [(f for f in (formatter, renderer, format) if f is not None)] *)
Definition suffix_elements (formatter renderer : option string) (format : string)
  : list string :=
  omap id [formatter; renderer; Some format].

(** The four membership tests, read as one condition on the arguments. *)
Definition unknown_capability (engine format_ : string)
    (renderer formatter : option string) : Prop :=
  engine ∉ ENGINES ∨ format_ ∉ FORMATS ∨
  (∃ r, renderer = Some r ∧ r ∉ RENDERERS) ∨
  (∃ f, formatter = Some f ∧ f ∉ FORMATTERS).

(** The arguments that [command] rejects: a formatter without a renderer,
    or a value outside the registry. *)
Definition validation_fails (engine format_ : string)
    (renderer formatter : option string) : Prop :=
  (formatter ≠ None ∧ renderer = None) ∨
  unknown_capability engine format_ renderer formatter.

End command.

(** ** The subprocess runner and the world it acts on *)

(** How the lines of standard input reach [execute.run_check]: the caller's
    iterator object itself ([pipe_lines_string]), or the generator
    [(line.encode(input_encoding) for line in input_lines)] wrapped around it
    ([pipe_lines]), which encodes a line only when the runner asks for it. *)
Inductive line_source :=
| Lines
| EncodedLines (input_encoding : string).

(** One call of [execute.run_check(cmd, **kwargs)]; a keyword that is not
    passed is [None]. *)
Record call := {
  call_cmd : list arg;
  kw_capture_output : bool;
  kw_cwd : option string;
  kw_quiet : bool;
  kw_input : option pyval;
  kw_encoding : option string;
  kw_input_lines : option line_source;
}.

(** [subprocess.CompletedProcess], as far as the module reads it. *)
Record CompletedProcess := {
  stdout : pyval;
  stderr : pyval;
}.

(** The part of the world the entry points can touch: the runner calls made
    so far (one per spawned process) and the state of the iterator object
    that the caller passes as [input_lines]. *)
Record World (iterator : Type) := {
  spawned : list call;
  lines : iterator;
}.
Arguments spawned {iterator} w.
Arguments lines {iterator} w.
Arguments Build_World {iterator} spawned lines.

(** [graphviz.backend.execute] is imported, not defined, by the module. What
    the runner and the process do with a call is a parameter: it yields a
    completed process or raises, and it may advance the line iterator. *)
Class Execute (iterator : Type) := {
  runner : call → iterator → outcome CompletedProcess * iterator;
}.

(** Computations over the world that may raise. *)
Definition M (iterator : Type) (A : Type) : Type :=
  World iterator → outcome A * World iterator.

Global Instance M_ret {iterator} : MRet (M iterator) := λ A a w, (Return a, w).
Global Instance M_bind {iterator} : MBind (M iterator) := λ A B k m w,
  match m w with
  | (Return a, w') => k a w'
  | (Raise e, w') => (Raise e, w')
  end.

(** A pure computation that may raise, run inside [M]. *)
Definition lift {iterator A} (o : outcome A) : M iterator A := λ w, (o, w).

Section rendering.
Context `{Common} `{Builtins} {iterator : Type} `{Execute iterator}.

(** Modelled from the spec: [execute.run_check], the Process Runner of
    section 6, which is not part of the module. Every call is one spawn and
    is recorded; its result and its effect on the line iterator are the
    [runner]'s. *)
Definition run_check (c : call) : M iterator CompletedProcess := λ w,
  let '(r, it) := runner c (lines w) in
  (r, {| spawned := spawned w ++ [c]; lines := it |}).

(** [render(engine, format, filepath, renderer=None, formatter=None,
    quiet=False)] *)
Definition render (engine format filepath : string)
    (renderer formatter : option string) (quiet : bool) : M iterator string :=
  let '(dirname, filename) := os_path.split filepath in
  cmd ← lift (command engine format renderer formatter);
  let cmd := cmd ++ [Str "-O"; Str filename] in
  let suffix := Py.join "." (suffix_elements formatter renderer format) in
  let rendered := filename +:+ "." +:+ suffix in
  let '(cwd, rendered) :=
    if Py.truthy dirname
    then (Some dirname, os_path.join dirname rendered)
    else (None, rendered) in
  run_check {| call_cmd := cmd; kw_capture_output := true; kw_cwd := cwd;
               kw_quiet := quiet; kw_input := None; kw_encoding := None;
               kw_input_lines := None |} ;;
  mret rendered.

(** [pipe(engine, format, data, renderer=None, formatter=None,
    quiet=False)] *)
Definition pipe (engine format : string) (data : bytes)
    (renderer formatter : option string) (quiet : bool) : M iterator pyval :=
  cmd ← lift (command engine format renderer formatter);
  proc ← run_check {| call_cmd := cmd; kw_capture_output := true; kw_cwd := None;
                      kw_quiet := quiet; kw_input := Some (PyBytes data);
                      kw_encoding := None; kw_input_lines := None |};
  mret (stdout proc).

(** [pipe_string(engine, format, input_string, *, encoding, renderer=None,
    formatter=None, quiet=False)] *)
Definition pipe_string (engine format input_string encoding : string)
    (renderer formatter : option string) (quiet : bool) : M iterator pyval :=
  cmd ← lift (command engine format renderer formatter);
  proc ← run_check {| call_cmd := cmd; kw_capture_output := true; kw_cwd := None;
                      kw_quiet := quiet; kw_input := Some (PyStr input_string);
                      kw_encoding := Some encoding; kw_input_lines := None |};
  mret (stdout proc).

(** [pipe_lines(engine, format, input_lines, *, input_encoding,
    renderer=None, formatter=None, quiet=False)]; [input_lines] is the
    iterator object whose state is [lines] of the world. *)
Definition pipe_lines (engine format input_encoding : string)
    (renderer formatter : option string) (quiet : bool) : M iterator pyval :=
  cmd ← lift (command engine format renderer formatter);
  proc ← run_check {| call_cmd := cmd; kw_capture_output := true; kw_cwd := None;
                      kw_quiet := quiet; kw_input := None; kw_encoding := None;
                      kw_input_lines := Some (EncodedLines input_encoding) |};
  mret (stdout proc).

(** [pipe_lines_string(engine, format, input_lines, *, encoding,
    renderer=None, formatter=None, quiet=False)] *)
Definition pipe_lines_string (engine format encoding : string)
    (renderer formatter : option string) (quiet : bool) : M iterator pyval :=
  cmd ← lift (command engine format renderer formatter);
  proc ← run_check {| call_cmd := cmd; kw_capture_output := true; kw_cwd := None;
                      kw_quiet := quiet; kw_input := None;
                      kw_encoding := Some encoding;
                      kw_input_lines := Some Lines |};
  mret (stdout proc).

(** The same call with another [quiet] flag. *)
Definition with_quiet (q : bool) (c : call) : call :=
  {| call_cmd := call_cmd c; kw_capture_output := kw_capture_output c;
     kw_cwd := kw_cwd c; kw_quiet := q; kw_input := kw_input c;
     kw_encoding := kw_encoding c; kw_input_lines := kw_input_lines c |}.

(** The runner calls made between the worlds [w] and [w']. *)
Definition new_calls (w w' : World iterator) : list call :=
  drop (length (spawned w)) (spawned w').

(** Modelled from the spec: the contract of the Process Runner about [quiet]
    (sections 4.2 and 7), whose code is not part of the module: the flag
    selects whether the captured standard error is echoed, and nothing of
    the result. *)
Definition quiet_insensitive : Prop :=
  ∀ q c it, runner (with_quiet q c) it = runner c it.

(** An entry point, as a function of its [quiet] argument, only forwards
    the flag: two runs from the same world end in the same outcome, leave
    the line iterator in the same state, and make the same runner calls up
    to the flag they carry. *)
Definition quiet_only_forwarded {A} (run : bool → M iterator A) : Prop :=
  ∀ q1 q2 w,
    (run q1 w).1 = (run q2 w).1 ∧
    lines (run q1 w).2 = lines (run q2 w).2 ∧
    new_calls w (run q2 w).2 = with_quiet q2 <$> new_calls w (run q1 w).2.

End rendering.

(** ** A small registry and a runner to evaluate the definitions on *)

Definition sample_common : Common := {|
  ENGINES := {[ "dot"; "neato" ]};
  FORMATS := {[ "svg"; "png"; "pdf" ]};
  RENDERERS := {[ "cairo"; "gd" ]};
  FORMATTERS := {[ "cairo"; "core"; "gd" ]};
|}.

(** The same registry with more engines and formats. *)
Definition sample_common_wide : Common := {|
  ENGINES := {[ "dot"; "neato"; "circo" ]};
  FORMATS := {[ "svg"; "png"; "pdf"; "jpeg" ]};
  RENDERERS := {[ "cairo"; "gd" ]};
  FORMATTERS := {[ "cairo"; "core"; "gd" ]};
|}.

Definition sample_builtins : Builtins := {| repr s := "'" +:+ s +:+ "'" |}.

(** A world in which nothing has been spawned and one line is pending. *)
Definition sample_world : World (list string) :=
  {| spawned := []; lines := ["graph { spam }"] |}.

(** A runner over a list of pending lines: it drains the lines when it is
    given a line source, and reports the argument list on standard output. *)
Definition sample_execute : Execute (list string) := {|
  runner c pending :=
    (Return {| stdout := PyStr (Py.join " " (map (λ a, match a with Path p => p | Str s => s end) (call_cmd c)));
               stderr := PyBytes [] |},
     match kw_input_lines c with Some _ => [] | None => pending end)
|}.

(** ** Properties of [os.path.split] and [os.path.join] *)

Section path_properties.

Lemma rfind_lower c s : -1 ≤ Py.rfind c s.
Proof.
  induction s as [|a r IH]; cbn; [lia|].
  destruct (Z.leb_spec 0 (Py.rfind c r)); [lia|].
  destruct (Ascii.eqb a c); lia.
Qed.

Lemma slice_from_0 s : Py.slice_from 0 s = s.
Proof.
  unfold Py.slice_from. change (Z.to_nat 0) with 0%nat.
  rewrite Nat.sub_0_r. induction s as [|a r IH]; cbn; [reflexivity|].
  by rewrite IH.
Qed.

Lemma slice_from_succ i a r :
  0 ≤ i → Py.slice_from (i + 1) (String a r) = Py.slice_from i r.
Proof.
  intros Hi. unfold Py.slice_from.
  replace (Z.to_nat (i + 1)) with (S (Z.to_nat i)) by lia. reflexivity.
Qed.

(** What follows the last [c] of [s] has no [c] in it. *)
Lemma slice_from_rfind c s :
  Py.contains c (Py.slice_from (Py.rfind c s + 1) s) = false ∧
  (Py.rfind c s = -1 → Py.contains c s = false).
Proof.
  induction s as [|a r [IH1 IH2]]; [by split|].
  cbn [Py.rfind]. pose proof (rfind_lower c r) as Hlow.
  destruct (Z.leb_spec 0 (Py.rfind c r)) as [Hpos|Hneg].
  - split; [|lia]. by rewrite slice_from_succ by lia.
  - assert (Py.rfind c r = -1) as Hr by lia.
    specialize (IH2 Hr).
    destruct (Ascii.eqb a c) eqn:Hac.
    + split; [|lia]. change (0 + 1) with (0 + 1)%Z.
      rewrite slice_from_succ by lia. by rewrite slice_from_0.
    + change (-1 + 1) with 0. rewrite slice_from_0. cbn.
      rewrite Hac, IH2. by split.
Qed.

Lemma startswith_contains c s : Py.startswith c s = true → Py.contains c s = true.
Proof. destruct s as [|a r]; cbn; [done|]. by intros ->. Qed.

(** The file name that [os.path.split] returns has no slash in it. *)
Lemma split_filename_no_sep p :
  Py.contains os_path.sep (os_path.split p).2 = false.
Proof. exact (proj1 (slice_from_rfind os_path.sep p)). Qed.

(** Joining a directory with a file name that came out of
    [os.path.split], extended by a dot and a suffix, appends it to the
    directory, with a slash in between unless the directory ends in one. *)
Lemma join_split_filename dirname p suffix :
  Py.truthy dirname = true →
  os_path.join dirname ((os_path.split p).2 +:+ "." +:+ suffix) =
    dirname +:+ (if Py.endswith os_path.sep dirname then "" else "/")
            +:+ (os_path.split p).2 +:+ "." +:+ suffix.
Proof.
  intros Hdir. pose proof (split_filename_no_sep p) as Hno.
  unfold os_path.join.
  assert (Py.startswith os_path.sep ((os_path.split p).2 +:+ "." +:+ suffix)
          = false) as ->.
  { destruct (os_path.split p).2 as [|a r]; [reflexivity|].
    cbn in Hno. apply orb_false_iff in Hno as [Ha _]. exact Ha. }
  rewrite Hdir. cbn [negb orb].
  destruct (Py.endswith os_path.sep dirname); reflexivity.
Qed.

(** A string is its first [n] characters followed by the rest. *)
Lemma substring_split n s :
  String.substring 0 n s +:+ String.substring n (String.length s - n) s = s.
Proof.
  revert n. induction s as [|a r IH]; intros [|n]; try reflexivity.
  - exact (slice_from_0 (String a r)).
  - change (String a (String.substring 0 n r +:+
                      String.substring n (String.length r - n) r) = String a r).
    by rewrite IH.
Qed.

Lemma slice_to_from i p : Py.slice_to i p +:+ Py.slice_from i p = p.
Proof. apply substring_split. Qed.

(** What precedes and includes the last [c] of [s] ends in [c]. *)
Lemma slice_to_rfind_endswith c s :
  0 ≤ Py.rfind c s → Py.endswith c (Py.slice_to (Py.rfind c s + 1) s) = true.
Proof.
  induction s as [|a r IH]; cbn [Py.rfind]; [lia|].
  destruct (Z.leb_spec 0 (Py.rfind c r)) as [Hpos|Hneg].
  - intros _. specialize (IH Hpos). unfold Py.slice_to in *.
    replace (Z.to_nat (Py.rfind c r + 1 + 1))
      with (S (Z.to_nat (Py.rfind c r + 1))) by lia.
    cbn [String.substring].
    destruct (String.substring 0 (Z.to_nat (Py.rfind c r + 1)) r);
      [discriminate|exact IH].
  - destruct (Ascii.eqb a c) eqn:Hac; [|lia].
    intros _. unfold Py.slice_to. change (Z.to_nat (0 + 1)) with 1%nat.
    cbn [String.substring]. by destruct r.
Qed.

(** [os.path.split] without its index arithmetic: the file name is what
    follows the last slash, and the directory is what precedes it, stripped
    of its trailing slashes unless it consists of slashes only. *)
Lemma split_spec p :
  ∃ head,
    p = head +:+ (os_path.split p).2 ∧
    (head = EmptyString ∨ Py.endswith os_path.sep head = true) ∧
    (os_path.split p).1 =
      if Py.all_char os_path.sep head then head else Py.rstrip os_path.sep head.
Proof.
  exists (Py.slice_to (Py.rfind os_path.sep p + 1) p).
  split; [symmetry; apply slice_to_from|]. split.
  - destruct (Z.leb_spec 0 (Py.rfind os_path.sep p)) as [Hpos|Hneg].
    + right. by apply slice_to_rfind_endswith.
    + left. pose proof (rfind_lower os_path.sep p).
      replace (Py.rfind os_path.sep p) with (-1) by lia.
      unfold Py.slice_to. change (Z.to_nat (-1 + 1)) with 0%nat. by destruct p.
  - unfold os_path.split. cbn [fst].
    set (head := Py.slice_to (Py.rfind os_path.sep p + 1) p).
    destruct (Py.all_char os_path.sep head) eqn:Ha;
      destruct (Py.truthy head) eqn:Ht; try reflexivity.
    destruct head; discriminate.
Qed.

(** The suffix that [render] joins, written out. *)
Lemma suffix_explicit format renderer formatter :
  Py.join "." (suffix_elements formatter renderer format) =
    match formatter, renderer with
    | Some f, Some r => f +:+ "." +:+ r +:+ "." +:+ format
    | Some f, None => f +:+ "." +:+ format
    | None, Some r => r +:+ "." +:+ format
    | None, None => format
    end.
Proof. destruct formatter, renderer; reflexivity. Qed.

End path_properties.

(** ** Properties of [command] *)

Section command_properties.
Context `{Common} `{Builtins}.

(** The arguments that pass the checks of [command], and what it returns
    for them. *)
Lemma command_Return_iff engine format_ renderer formatter cmd :
  command engine format_ renderer formatter = Return cmd ↔
    (formatter = None ∨ renderer ≠ None) ∧
    engine ∈ ENGINES ∧ format_ ∈ FORMATS ∧
    (∀ r, renderer = Some r → r ∈ RENDERERS) ∧
    (∀ f, formatter = Some f → f ∈ FORMATTERS) ∧
    cmd = [DOT_BINARY; Str ("-K" +:+ engine);
           Str ("-T" +:+ Py.join ":" (output_format format_ renderer formatter))].
Proof.
  unfold command, raise_if.
  destruct formatter as [f|], renderer as [r|]; cbn;
    repeat (case_bool_decide; cbn); split;
    first [ intros [= <-] | intros (Hf & He & Hfm & Hr & Hft & ->) ];
    repeat match goal with
      | Hn : ¬ (_ ∉ _) |- _ => apply dec_stable in Hn
      end;
    try reflexivity; repeat split; auto;
    try (intros ? [= <-]; assumption);
    try (exfalso; eauto; fail).
  all: try (destruct Hf as [[=]|Hf]; congruence).
Qed.

(** A formatter without a renderer is rejected first, whatever else is
    passed. *)
Lemma command_formatter_without_renderer_eq engine format_ renderer formatter :
  formatter ≠ None → renderer = None →
  command engine format_ renderer formatter =
    Raise (RequiredArgumentError "formatter given without renderer").
Proof.
  intros Hf ->. destruct formatter as [f|]; [reflexivity | congruence].
Qed.

(** C3: for every engine and format, also unknown ones, [command] raises
    [RequiredArgumentError] whenever a formatter is given and the renderer
    is [None]. *)
Theorem command_formatter_without_renderer engine format_ renderer formatter :
  formatter ≠ None → renderer = None →
  command engine format_ renderer formatter =
    Raise (RequiredArgumentError "formatter given without renderer").
Proof. apply command_formatter_without_renderer_eq. Qed.

(** Past the formatter-without-renderer test, the first value outside the
    registry, in the order engine, format, renderer, formatter, is
    reported in a [ValueError]. *)
Lemma command_unknown_capability_eq engine format_ renderer formatter :
  (formatter = None ∨ renderer ≠ None) →
  unknown_capability engine format_ renderer formatter →
  ∃ kind v,
    command engine format_ renderer formatter =
      Raise (ValueError ("unknown " +:+ kind +:+ ": " +:+ repr v)) ∧
    ((kind = "engine" ∧ v = engine ∧ engine ∉ ENGINES) ∨
     (kind = "format" ∧ v = format_ ∧ format_ ∉ FORMATS) ∨
     (kind = "renderer" ∧ renderer = Some v ∧ v ∉ RENDERERS) ∨
     (kind = "formatter" ∧ formatter = Some v ∧ v ∉ FORMATTERS)).
Proof.
  intros Hpair Hunknown. unfold command, raise_if.
  assert (is_not_None formatter && is_None renderer = false) as ->.
  { destruct formatter, renderer; try reflexivity.
    destruct Hpair; congruence. }
  cbn. destruct (bool_decide_reflect (engine ∉ ENGINES)) as [He|He]; cbn.
  { exists "engine", engine. split; [reflexivity | auto]. }
  destruct (bool_decide_reflect (format_ ∉ FORMATS)) as [Hfm|Hfm]; cbn.
  { exists "format", format_. split; [reflexivity | auto 6]. }
  destruct renderer as [r|]; cbn.
  - destruct (bool_decide_reflect (r ∉ RENDERERS)) as [Hr|Hr]; cbn.
    { exists "renderer", r. split; [reflexivity | auto 8]. }
    destruct formatter as [f|]; cbn.
    + destruct (bool_decide_reflect (f ∉ FORMATTERS)) as [Hft|Hft]; cbn.
      { exists "formatter", f. split; [reflexivity | auto 8]. }
      exfalso. destruct Hunknown as [?|[?|[(? & [= <-] & ?)|(? & [= <-] & ?)]]]; auto.
    + exfalso. destruct Hunknown as [?|[?|[(? & [= <-] & ?)|(? & [=] & ?)]]]; auto.
  - destruct formatter as [f|]; [destruct Hpair; congruence|].
    exfalso. destruct Hunknown as [?|[?|[(? & [=] & ?)|(? & [=] & ?)]]]; auto.
Qed.

(** C2 (amended): when no formatter is given without a renderer and some
    argument is not in its registry set, [command] raises a [ValueError]
    whose message names an offending value, whatever the other arguments
    are and however many of them are unknown. *)
Theorem command_unknown_capability engine format_ renderer formatter :
  (formatter = None ∨ renderer ≠ None) →
  unknown_capability engine format_ renderer formatter →
  ∃ kind v,
    command engine format_ renderer formatter =
      Raise (ValueError ("unknown " +:+ kind +:+ ": " +:+ repr v)) ∧
    ((kind = "engine" ∧ v = engine ∧ engine ∉ ENGINES) ∨
     (kind = "format" ∧ v = format_ ∧ format_ ∉ FORMATS) ∨
     (kind = "renderer" ∧ renderer = Some v ∧ v ∉ RENDERERS) ∨
     (kind = "formatter" ∧ formatter = Some v ∧ v ∉ FORMATTERS)).
Proof. apply command_unknown_capability_eq. Qed.

(** C4: for a known engine and a known format, without renderer and
    formatter, [command] returns exactly the binary, ["-K<engine>"] and
    ["-T<format>"]; the binary is the constant [DOT_BINARY]. *)
Theorem command_engine_format engine format_ :
  engine ∈ ENGINES → format_ ∈ FORMATS →
  command engine format_ None None =
    Return [DOT_BINARY; Str ("-K" +:+ engine); Str ("-T" +:+ format_)] ∧
  DOT_BINARY = Path "dot".
Proof.
  intros He Hfm. split; [|reflexivity].
  apply command_Return_iff. repeat split; auto; intros ? [=].
Qed.

(** C5: for known arguments, the [-T] flag is
    ["<format>:<renderer>"] when only a renderer is given and
    ["<format>:<renderer>:<formatter>"] when a formatter is given too. *)
Theorem command_output_format_flag engine format_ r :
  engine ∈ ENGINES → format_ ∈ FORMATS → r ∈ RENDERERS →
  command engine format_ (Some r) None =
    Return [DOT_BINARY; Str ("-K" +:+ engine);
            Str ("-T" +:+ format_ +:+ ":" +:+ r)] ∧
  ∀ f, f ∈ FORMATTERS →
    command engine format_ (Some r) (Some f) =
      Return [DOT_BINARY; Str ("-K" +:+ engine);
              Str ("-T" +:+ format_ +:+ ":" +:+ r +:+ ":" +:+ f)].
Proof.
  intros He Hfm Hr. split; [|intros f Hf]; apply command_Return_iff;
    repeat split; auto; try (intros ? [= <-]; assumption);
    try (intros ? [=]); right; discriminate.
Qed.

(** The elements of [output_format] are the arguments that are not
    [None]. *)
Lemma output_format_elem format_ renderer formatter x :
  x ∈ output_format format_ renderer formatter ↔
  x = format_ ∨ renderer = Some x ∨ formatter = Some x.
Proof.
  unfold output_format.
  destruct renderer as [r|], formatter as [f|]; cbn;
    rewrite ?elem_of_cons, elem_of_nil; split;
    intros Hx; repeat destruct Hx as [Hx|Hx];
    try discriminate; try contradiction;
    try (injection Hx as ->); subst; auto.
Qed.

(** The two element lists are mirror images of each other. *)
Lemma suffix_elements_reverse format_ renderer formatter :
  suffix_elements formatter renderer format_ =
    reverse (output_format format_ renderer formatter).
Proof. destruct renderer, formatter; reflexivity. Qed.

End command_properties.

(** ** Properties of the entry points *)

(** Discharges the side conditions of [command_Return_iff]. *)
Ltac command_accepts :=
  repeat split; auto;
  try (by intros ? [= <-]); try (by intros ? [=]); try (by right); try (by left).

Section rendering_properties.
Context `{Common} `{Builtins} {iterator : Type} `{Execute iterator}.

(** [command] raises exactly on the arguments that fail validation, and
    then with one of its two exception classes. *)
Lemma command_Raise_iff engine format_ renderer formatter :
  validation_fails engine format_ renderer formatter ↔
  ∃ e, command engine format_ renderer formatter = Raise e.
Proof.
  split.
  - intros [[Hf Hr]|Hunknown].
    + eexists. by apply command_formatter_without_renderer_eq.
    + destruct (decide (formatter ≠ None ∧ renderer = None)) as [[Hf Hr]|Hn].
      * eexists. by apply command_formatter_without_renderer_eq.
      * assert (formatter = None ∨ renderer ≠ None) as Hpair.
        { destruct formatter, renderer; auto; by right. }
        destruct (command_unknown_capability_eq _ _ _ _ Hpair Hunknown)
          as (kind & v & -> & _). eauto.
  - intros [e He].
    destruct (command engine format_ renderer formatter) as [cmd|e'] eqn:Hc;
      [discriminate|].
    destruct (decide (formatter ≠ None ∧ renderer = None)) as [?|Hn];
      [by left|right].
    destruct (decide (engine ∈ ENGINES)) as [Hen|Hen]; [|by left].
    destruct (decide (format_ ∈ FORMATS)) as [Hfm|Hfm]; [|by right; left].
    destruct renderer as [r|].
    + destruct (decide (r ∈ RENDERERS)) as [Hr|Hr];
        [|right; right; left; eauto].
      destruct formatter as [f|].
      * destruct (decide (f ∈ FORMATTERS)) as [Hft|Hft];
          [|right; right; right; eauto].
        exfalso.
        assert (command engine format_ (Some r) (Some f) = Return
          [DOT_BINARY; Str ("-K" +:+ engine);
           Str ("-T" +:+ Py.join ":" (output_format format_ (Some r) (Some f)))])
          as Hok; [|congruence].
        apply command_Return_iff.
        command_accepts.
      * exfalso.
        assert (command engine format_ (Some r) None = Return
          [DOT_BINARY; Str ("-K" +:+ engine);
           Str ("-T" +:+ Py.join ":" (output_format format_ (Some r) None))])
          as Hok; [|congruence].
        apply command_Return_iff.
        command_accepts.
    + destruct formatter as [f|]; [exfalso; apply Hn; by split|].
      exfalso.
      assert (command engine format_ None None = Return
        [DOT_BINARY; Str ("-K" +:+ engine);
         Str ("-T" +:+ Py.join ":" (output_format format_ None None))])
        as Hok; [|congruence].
      apply command_Return_iff. command_accepts.
Qed.

(** *** When [command] raises

    Every entry point calls [command] before anything else that has an
    effect, so its exception comes out unchanged and the world is as it
    was. *)

Lemma render_command_raises engine format filepath renderer formatter quiet e w :
  command engine format renderer formatter = Raise e →
  render engine format filepath renderer formatter quiet w = (Raise e, w).
Proof.
  intros Hc. unfold render. destruct (os_path.split filepath) as [dirname filename].
  unfold mbind, M_bind, lift. by rewrite Hc.
Qed.

Lemma pipe_command_raises engine format (data : bytes) renderer formatter quiet e w :
  command engine format renderer formatter = Raise e →
  pipe engine format data renderer formatter quiet w = (Raise e, w).
Proof. intros Hc. unfold pipe, mbind, M_bind, lift. by rewrite Hc. Qed.

Lemma pipe_string_command_raises engine format (input_string encoding : string) renderer formatter quiet e w :
  command engine format renderer formatter = Raise e →
  pipe_string engine format input_string encoding renderer formatter quiet w = (Raise e, w).
Proof. intros Hc. unfold pipe_string, mbind, M_bind, lift. by rewrite Hc. Qed.

Lemma pipe_lines_command_raises engine format (input_encoding : string) renderer formatter quiet e w :
  command engine format renderer formatter = Raise e →
  pipe_lines engine format input_encoding renderer formatter quiet w = (Raise e, w).
Proof. intros Hc. unfold pipe_lines, mbind, M_bind, lift. by rewrite Hc. Qed.

Lemma pipe_lines_string_command_raises engine format (encoding : string) renderer formatter quiet e w :
  command engine format renderer formatter = Raise e →
  pipe_lines_string engine format encoding renderer formatter quiet w = (Raise e, w).
Proof. intros Hc. unfold pipe_lines_string, mbind, M_bind, lift. by rewrite Hc. Qed.

(** *** When [command] returns

    The entry point makes one runner call; the runner decides whether it
    returns or raises and how far the line iterator moves. *)

Lemma render_command_returns engine format filepath renderer formatter quiet cmd w :
  command engine format renderer formatter = Return cmd →
  render engine format filepath renderer formatter quiet w =
    let dirname := (os_path.split filepath).1 in
    let filename := (os_path.split filepath).2 in
    let rendered :=
      filename +:+ "." +:+ Py.join "." (suffix_elements formatter renderer format) in
    let c :=
      {| call_cmd := cmd ++ [Str "-O"; Str filename]; kw_capture_output := true;
         kw_cwd := if Py.truthy dirname then Some dirname else None;
         kw_quiet := quiet; kw_input := None; kw_encoding := None;
         kw_input_lines := None |} in
    ((runner c (lines w)).1 ≫= λ _,
       Return (if Py.truthy dirname then os_path.join dirname rendered
               else rendered),
     {| spawned := spawned w ++ [c]; lines := (runner c (lines w)).2 |}).
Proof.
  intros Hc. unfold render. destruct (os_path.split filepath) as [dirname filename].
  unfold mbind at 1. unfold M_bind, lift. rewrite Hc. cbn [fst snd].
  destruct (Py.truthy dirname); unfold mbind at 1; unfold run_check;
    destruct (runner _ (lines w)) as [[proc|e] it]; reflexivity.
Qed.

Lemma pipe_command_returns engine format (data : bytes) renderer formatter quiet cmd w :
  command engine format renderer formatter = Return cmd →
  pipe engine format data renderer formatter quiet w =
    let c :=
      {| call_cmd := cmd; kw_capture_output := true; kw_cwd := None;
         kw_quiet := quiet; kw_input := Some (PyBytes data); kw_encoding := None;
         kw_input_lines := None |} in
    ((runner c (lines w)).1 ≫= λ proc, Return (stdout proc),
     {| spawned := spawned w ++ [c]; lines := (runner c (lines w)).2 |}).
Proof.
  intros Hc. unfold pipe. unfold mbind at 1. unfold M_bind, lift. rewrite Hc.
  unfold mbind at 1. unfold run_check.
  destruct (runner _ (lines w)) as [[proc|e] it]; reflexivity.
Qed.

Lemma pipe_string_command_returns engine format (input_string encoding : string) renderer formatter quiet cmd w :
  command engine format renderer formatter = Return cmd →
  pipe_string engine format input_string encoding renderer formatter quiet w =
    let c :=
      {| call_cmd := cmd; kw_capture_output := true; kw_cwd := None;
         kw_quiet := quiet; kw_input := Some (PyStr input_string);
         kw_encoding := Some encoding; kw_input_lines := None |} in
    ((runner c (lines w)).1 ≫= λ proc, Return (stdout proc),
     {| spawned := spawned w ++ [c]; lines := (runner c (lines w)).2 |}).
Proof.
  intros Hc. unfold pipe_string. unfold mbind at 1. unfold M_bind, lift. rewrite Hc.
  unfold mbind at 1. unfold run_check.
  destruct (runner _ (lines w)) as [[proc|e] it]; reflexivity.
Qed.

Lemma pipe_lines_command_returns engine format (input_encoding : string) renderer formatter quiet cmd w :
  command engine format renderer formatter = Return cmd →
  pipe_lines engine format input_encoding renderer formatter quiet w =
    let c :=
      {| call_cmd := cmd; kw_capture_output := true; kw_cwd := None;
         kw_quiet := quiet; kw_input := None; kw_encoding := None;
         kw_input_lines := Some (EncodedLines input_encoding) |} in
    ((runner c (lines w)).1 ≫= λ proc, Return (stdout proc),
     {| spawned := spawned w ++ [c]; lines := (runner c (lines w)).2 |}).
Proof.
  intros Hc. unfold pipe_lines. unfold mbind at 1. unfold M_bind, lift. rewrite Hc.
  unfold mbind at 1. unfold run_check.
  destruct (runner _ (lines w)) as [[proc|e] it]; reflexivity.
Qed.

Lemma pipe_lines_string_command_returns engine format (encoding : string) renderer formatter quiet cmd w :
  command engine format renderer formatter = Return cmd →
  pipe_lines_string engine format encoding renderer formatter quiet w =
    let c :=
      {| call_cmd := cmd; kw_capture_output := true; kw_cwd := None;
         kw_quiet := quiet; kw_input := None; kw_encoding := Some encoding;
         kw_input_lines := Some Lines |} in
    ((runner c (lines w)).1 ≫= λ proc, Return (stdout proc),
     {| spawned := spawned w ++ [c]; lines := (runner c (lines w)).2 |}).
Proof.
  intros Hc. unfold pipe_lines_string. unfold mbind at 1. unfold M_bind, lift. rewrite Hc.
  unfold mbind at 1. unfold run_check.
  destruct (runner _ (lines w)) as [[proc|e] it]; reflexivity.
Qed.

(** *** The quiet flag *)

Lemma new_calls_same (w : World iterator) : new_calls w w = [].
Proof. unfold new_calls. by rewrite drop_all. Qed.

Lemma new_calls_one (w : World iterator) c it :
  new_calls w {| spawned := spawned w ++ [c]; lines := it |} = [c].
Proof. unfold new_calls. cbn. by rewrite drop_app_length. Qed.

(** A run that stops before the runner is reached. *)
Lemma quiet_only_forwarded_raise {A} (run : bool → M iterator A) e :
  (∀ q w, run q w = (Raise e, w)) → quiet_only_forwarded run.
Proof.
  intros Hrun q1 q2 w. rewrite !Hrun. cbn. by rewrite new_calls_same.
Qed.

(** A run that makes one runner call [mk q], in which [q] is only the
    flag, and shapes the result with [k]. *)
Lemma quiet_only_forwarded_call {A} (run : bool → M iterator A)
    (mk : bool → call) (k : outcome CompletedProcess → outcome A) :
  (∀ q q', mk q = with_quiet q (mk q')) →
  (∀ q w, run q w =
     (k (runner (mk q) (lines w)).1,
      {| spawned := spawned w ++ [mk q]; lines := (runner (mk q) (lines w)).2 |})) →
  quiet_insensitive → quiet_only_forwarded run.
Proof.
  intros Hmk Hrun Hq q1 q2 w. rewrite !Hrun. cbn.
  rewrite !new_calls_one. cbn.
  rewrite (Hmk q1 q2), Hq. repeat split.
  exact (f_equal (λ c, [c]) (Hmk q2 q2)).
Qed.

(** *** The claims about the entry points *)

(** C7: for arguments that [command] accepts, [render] makes one runner
    call. Its argument list is the three elements of [command] followed by
    ["-O"] and the file name of [filepath], which has no directory part
    left; its working directory is the directory part of [filepath], or
    none (the current directory) when that part is empty; it carries no
    input, no encoding and no line source. *)
Theorem render_invocation engine format filepath renderer formatter quiet cmd w :
  command engine format renderer formatter = Return cmd →
  let dirname := (os_path.split filepath).1 in
  let filename := (os_path.split filepath).2 in
  length cmd = 3%nat ∧
  Py.contains os_path.sep filename = false ∧
  spawned (render engine format filepath renderer formatter quiet w).2 =
    spawned w ++
    [ {| call_cmd := cmd ++ [Str "-O"; Str filename];
         kw_capture_output := true;
         kw_cwd := if Py.truthy dirname then Some dirname else None;
         kw_quiet := quiet; kw_input := None; kw_encoding := None;
         kw_input_lines := None |} ].
Proof.
  intros Hc dirname filename. split; [|split].
  - apply command_Return_iff in Hc as (_ & _ & _ & _ & _ & ->). reflexivity.
  - apply split_filename_no_sep.
  - by rewrite (render_command_returns _ _ _ _ _ _ _ _ Hc).
Qed.

(** C6: for arguments that [command] accepts, what [render] returns is the
    file name of [filepath], a dot and the dot-joined suffix (the formatter,
    the renderer and the format, those that are given, in this order),
    joined to the directory part of [filepath] when there is one. The file
    name is what follows the last slash of [filepath], the directory what
    precedes it without its trailing slashes. [render] returns this path
    whenever the runner returns, whatever the completed process holds, and
    raises what the runner raises otherwise. In particular
    ["a/b/graph.gv"] with engine ["dot"] and format ["svg"] gives
    ["a/b/graph.gv.svg"]. *)
Theorem render_returns_path engine format filepath renderer formatter quiet w :
  (∀ cmd, command engine format renderer formatter = Return cmd →
    let dirname := (os_path.split filepath).1 in
    let filename := (os_path.split filepath).2 in
    let suffix :=
      match formatter, renderer with
      | Some f, Some r => f +:+ "." +:+ r +:+ "." +:+ format
      | None, Some r => r +:+ "." +:+ format
      | _, None => format
      end in
    let rendered := filename +:+ "." +:+ suffix in
    let path :=
      if Py.truthy dirname
      then dirname +:+ (if Py.endswith os_path.sep dirname then "" else "/")
                   +:+ rendered
      else rendered in
    (∃ head,
       filepath = head +:+ filename ∧
       Py.contains os_path.sep filename = false ∧
       (head = EmptyString ∨ Py.endswith os_path.sep head = true) ∧
       dirname = if Py.all_char os_path.sep head then head
                 else Py.rstrip os_path.sep head) ∧
    (Py.truthy dirname = true → path = os_path.join dirname rendered) ∧
    ∃ c, spawned (render engine format filepath renderer formatter quiet w).2 =
           spawned w ++ [c] ∧
         (render engine format filepath renderer formatter quiet w).1 =
           (runner c (lines w)).1 ≫= λ _, Return path) ∧
  ("dot" ∈ ENGINES → "svg" ∈ FORMATS →
    ∃ c, spawned (render "dot" "svg" "a/b/graph.gv" None None quiet w).2 =
           spawned w ++ [c] ∧
         (render "dot" "svg" "a/b/graph.gv" None None quiet w).1 =
           (runner c (lines w)).1 ≫= λ _, Return "a/b/graph.gv.svg").
Proof.
  split.
  - intros cmd Hc dirname filename suffix rendered path.
    assert (suffix = Py.join "." (suffix_elements formatter renderer format))
      as Hsuffix.
    { rewrite suffix_explicit. subst suffix.
      apply command_Return_iff in Hc as (Hpair & _).
      destruct formatter, renderer; try reflexivity.
      destruct Hpair; congruence. }
    assert (path = if Py.truthy dirname then os_path.join dirname rendered
                   else rendered) as Hpath.
    { subst path. destruct (Py.truthy dirname) eqn:Hdir; [|reflexivity].
      symmetry. by apply join_split_filename. }
    split; [|split].
    + destruct (split_spec filepath) as (head & Hp & Hhead & Hdir).
      exists head. split; [exact Hp|]. split; [apply split_filename_no_sep|].
      split; [exact Hhead|exact Hdir].
    + intros Hdir. by rewrite Hpath, Hdir.
    + rewrite (render_command_returns _ _ _ _ _ _ _ _ Hc). cbv zeta.
      rewrite Hpath. subst rendered. rewrite Hsuffix.
      eexists. split; reflexivity.
  - intros He Hf.
    assert (command "dot" "svg" None None =
              Return [DOT_BINARY; Str "-Kdot"; Str "-Tsvg"]) as Hc.
    { apply command_Return_iff. command_accepts. }
    rewrite (render_command_returns _ _ _ _ _ _ _ _ Hc). eauto.
Qed.

(** C8: when the arguments fail validation, each of the five entry points
    raises the exception of [command] as it is, and the list of runner
    calls is what it was: no process is spawned. *)
Theorem validation_error_before_spawn engine format renderer formatter :
  validation_fails engine format renderer formatter →
  ∃ e, command engine format renderer formatter = Raise e ∧
    (∀ filepath quiet w,
       let r := render engine format filepath renderer formatter quiet w in
       r.1 = Raise e ∧ spawned r.2 = spawned w) ∧
    (∀ data quiet w,
       let r := pipe engine format data renderer formatter quiet w in
       r.1 = Raise e ∧ spawned r.2 = spawned w) ∧
    (∀ input_string encoding quiet w,
       let r := pipe_string engine format input_string encoding
                  renderer formatter quiet w in
       r.1 = Raise e ∧ spawned r.2 = spawned w) ∧
    (∀ input_encoding quiet w,
       let r := pipe_lines engine format input_encoding
                  renderer formatter quiet w in
       r.1 = Raise e ∧ spawned r.2 = spawned w) ∧
    (∀ encoding quiet w,
       let r := pipe_lines_string engine format encoding
                  renderer formatter quiet w in
       r.1 = Raise e ∧ spawned r.2 = spawned w).
Proof.
  intros [e Hc]%command_Raise_iff. exists e. split; [assumption|].
  split; [|split; [|split; [|split]]]; intros; subst r.
  - by rewrite (render_command_raises _ _ _ _ _ _ _ _ Hc).
  - by rewrite (pipe_command_raises _ _ _ _ _ _ _ _ Hc).
  - by rewrite (pipe_string_command_raises _ _ _ _ _ _ _ _ _ Hc).
  - by rewrite (pipe_lines_command_raises _ _ _ _ _ _ _ _ Hc).
  - by rewrite (pipe_lines_string_command_raises _ _ _ _ _ _ _ _ Hc).
Qed.

(** C10: when the arguments fail validation, [pipe_lines] and
    [pipe_lines_string] raise the exception of [command] and the iterator
    passed as [input_lines] is in the state it was in: no line is taken
    from it, none is encoded. *)
Theorem validation_error_before_lines engine format renderer formatter :
  validation_fails engine format renderer formatter →
  ∃ e, command engine format renderer formatter = Raise e ∧
    (∀ input_encoding quiet w,
       let r := pipe_lines engine format input_encoding
                  renderer formatter quiet w in
       r.1 = Raise e ∧ lines r.2 = lines w) ∧
    (∀ encoding quiet w,
       let r := pipe_lines_string engine format encoding
                  renderer formatter quiet w in
       r.1 = Raise e ∧ lines r.2 = lines w).
Proof.
  intros [e Hc]%command_Raise_iff. exists e. split; [assumption|].
  split; intros enc quiet w; cbv zeta.
  - by rewrite (pipe_lines_command_raises _ _ _ _ _ _ _ _ Hc).
  - by rewrite (pipe_lines_string_command_raises _ _ _ _ _ _ _ _ Hc).
Qed.

Ltac forwarded_call Hq Hrun Hc :=
  eapply (quiet_only_forwarded_call _ _ (λ o, o ≫= _));
    [ | intros ? ?; eapply Hrun; exact Hc | exact Hq ]; reflexivity.

(** C9: with a runner whose result does not depend on the quiet flag, each
    of the five entry points only forwards the flag: two runs that differ
    in [quiet] alone build the same invocation, hand the same input and
    working directory to the runner, and return the same result or raise
    the same exception. *)
Theorem quiet_noninterference engine format renderer formatter :
  quiet_insensitive →
  (∀ filepath,
     quiet_only_forwarded (render engine format filepath renderer formatter)) ∧
  (∀ data,
     quiet_only_forwarded (pipe engine format data renderer formatter)) ∧
  (∀ input_string encoding,
     quiet_only_forwarded
       (pipe_string engine format input_string encoding renderer formatter)) ∧
  (∀ input_encoding,
     quiet_only_forwarded
       (pipe_lines engine format input_encoding renderer formatter)) ∧
  (∀ encoding,
     quiet_only_forwarded
       (pipe_lines_string engine format encoding renderer formatter)).
Proof.
  intros Hq.
  destruct (command engine format renderer formatter) as [cmd|e] eqn:Hc.
  - split; [|split; [|split; [|split]]]; intros.
    + forwarded_call Hq render_command_returns Hc.
    + forwarded_call Hq pipe_command_returns Hc.
    + forwarded_call Hq pipe_string_command_returns Hc.
    + forwarded_call Hq pipe_lines_command_returns Hc.
    + forwarded_call Hq pipe_lines_string_command_returns Hc.
  - split; [|split; [|split; [|split]]]; intros;
      apply (quiet_only_forwarded_raise _ e); intros q w'.
    + apply (render_command_raises _ _ _ _ _ _ _ _ Hc).
    + apply (pipe_command_raises _ _ _ _ _ _ _ _ Hc).
    + apply (pipe_string_command_raises _ _ _ _ _ _ _ _ _ Hc).
    + apply (pipe_lines_command_raises _ _ _ _ _ _ _ _ Hc).
    + apply (pipe_lines_string_command_raises _ _ _ _ _ _ _ _ Hc).
Qed.

(** C1 (amended): for arguments that [command] accepts, the [-T] value of
    [command] and the file suffix of [render] are joined from the same
    elements, the ones of format, renderer and formatter that are not
    [None], but in opposite orders: format, renderer, formatter for the
    flag and formatter, renderer, format for the suffix; the flag joins
    them with [":"], the suffix with ["."]. *)
Theorem output_format_suffix_mirrored
    engine format filepath renderer formatter quiet cmd w :
  command engine format renderer formatter = Return cmd →
  let parts := output_format format renderer formatter in
  let dirname := (os_path.split filepath).1 in
  let filename := (os_path.split filepath).2 in
  let rendered := filename +:+ "." +:+ Py.join "." (reverse parts) in
  (∀ x, x ∈ parts ↔ x = format ∨ renderer = Some x ∨ formatter = Some x) ∧
  parts = format :: option_list renderer ++ option_list formatter ∧
  suffix_elements formatter renderer format = reverse parts ∧
  cmd = [DOT_BINARY; Str ("-K" +:+ engine); Str ("-T" +:+ Py.join ":" parts)] ∧
  ∃ c, (render engine format filepath renderer formatter quiet w).1 =
         (runner c (lines w)).1 ≫= λ _,
           Return (if Py.truthy dirname then os_path.join dirname rendered
                   else rendered).
Proof.
  intros Hc parts dirname filename rendered. split; [|repeat split].
  - apply output_format_elem.
  - subst parts. destruct renderer, formatter; reflexivity.
  - apply suffix_elements_reverse.
  - by apply command_Return_iff in Hc as (_ & _ & _ & _ & _ & ->).
  - rewrite (render_command_returns _ _ _ _ _ _ _ _ Hc). cbn zeta.
    rewrite suffix_elements_reverse. eauto.
Qed.

End rendering_properties.


(** ** The properties on the sample registry and runner *)

Section samples.
Local Existing Instances sample_common sample_builtins sample_execute.

(** Closed membership facts are decided by evaluation. *)
Ltac evaluate := apply (bool_decide_unpack _); vm_compute; exact I.

Lemma command_formatter_without_renderer_witness :
  Some "core" ≠ None ∧ None = @None string ∧
  command "not-a-real-engine" "svg" None (Some "core") =
    Raise (RequiredArgumentError "formatter given without renderer").
Proof.
  split; [discriminate|]. split; [reflexivity|].
  apply command_formatter_without_renderer; [discriminate|reflexivity].
Defined.

(** C2, as stated, fails: with an unknown engine and a formatter without a
    renderer, the exception is not the unknown-capability one. *)
Lemma command_unknown_capability_counterexample :
  unknown_capability "not-a-real-engine" "svg" None (Some "core") ∧
  command "not-a-real-engine" "svg" None (Some "core") =
    Raise (RequiredArgumentError "formatter given without renderer") ∧
  ¬ ∃ msg, command "not-a-real-engine" "svg" None (Some "core") =
             Raise (ValueError msg).
Proof.
  split; [left; evaluate|]. split; [reflexivity|].
  intros [msg Hmsg]. discriminate Hmsg.
Qed.

Lemma command_unknown_capability_witness :
  (Some "core" = None ∨ Some "cairo" ≠ None) ∧
  unknown_capability "not-a-real-engine" "jpeg" (Some "cairo") (Some "core") ∧
  ∃ kind v,
    command "not-a-real-engine" "jpeg" (Some "cairo") (Some "core") =
      Raise (ValueError ("unknown " +:+ kind +:+ ": " +:+ repr v)) ∧
    ((kind = "engine" ∧ v = "not-a-real-engine" ∧ "not-a-real-engine" ∉ ENGINES) ∨
     (kind = "format" ∧ v = "jpeg" ∧ "jpeg" ∉ FORMATS) ∨
     (kind = "renderer" ∧ Some "cairo" = Some v ∧ v ∉ RENDERERS) ∨
     (kind = "formatter" ∧ Some "core" = Some v ∧ v ∉ FORMATTERS)).
Proof.
  assert (Some "core" = None ∨ Some "cairo" ≠ None) as Hpair
    by (right; discriminate).
  assert (unknown_capability "not-a-real-engine" "jpeg" (Some "cairo") (Some "core"))
    as Hunknown by (left; evaluate).
  split; [exact Hpair|]. split; [exact Hunknown|].
  exact (command_unknown_capability _ _ _ _ Hpair Hunknown).
Defined.

Lemma command_engine_format_witness :
  "dot" ∈ ENGINES ∧ "svg" ∈ FORMATS ∧
  command "dot" "svg" None None = Return [Path "dot"; Str "-Kdot"; Str "-Tsvg"] ∧
  DOT_BINARY = Path "dot".
Proof.
  assert ("dot" ∈ ENGINES) as He by evaluate.
  assert ("svg" ∈ FORMATS) as Hf by evaluate.
  split; [exact He|]. split; [exact Hf|].
  exact (command_engine_format "dot" "svg" He Hf).
Defined.

Lemma command_output_format_flag_witness :
  "dot" ∈ ENGINES ∧ "png" ∈ FORMATS ∧ "cairo" ∈ RENDERERS ∧ "gd" ∈ FORMATTERS ∧
  command "dot" "png" (Some "cairo") None =
    Return [Path "dot"; Str "-Kdot"; Str "-Tpng:cairo"] ∧
  command "dot" "png" (Some "cairo") (Some "gd") =
    Return [Path "dot"; Str "-Kdot"; Str "-Tpng:cairo:gd"].
Proof.
  assert ("dot" ∈ ENGINES) as He by evaluate.
  assert ("png" ∈ FORMATS) as Hf by evaluate.
  assert ("cairo" ∈ RENDERERS) as Hr by evaluate.
  assert ("gd" ∈ FORMATTERS) as Hg by evaluate.
  repeat (split; [assumption|]).
  destruct (command_output_format_flag "dot" "png" "cairo" He Hf Hr) as [H1 H2].
  split; [exact H1 | exact (H2 "gd" Hg)].
Defined.

(** C1, as stated, fails: with a renderer the two joins list the same
    elements in opposite orders. *)
Lemma output_format_suffix_order_counterexample :
  command "dot" "png" (Some "cairo") None =
    Return [Path "dot"; Str "-Kdot"; Str "-Tpng:cairo"] ∧
  (render "dot" "png" "graph.gv" (Some "cairo") None false sample_world).1 =
    Return "graph.gv.cairo.png" ∧
  output_format "png" (Some "cairo") None = ["png"; "cairo"] ∧
  suffix_elements None (Some "cairo") "png" = ["cairo"; "png"] ∧
  suffix_elements None (Some "cairo") "png" ≠
    output_format "png" (Some "cairo") None.
Proof.
  split; [vm_compute; reflexivity|]. split; [vm_compute; reflexivity|].
  split; [reflexivity|]. split; [reflexivity|]. discriminate.
Qed.

Lemma output_format_suffix_mirrored_witness :
  command "dot" "png" (Some "cairo") (Some "gd") =
    Return [Path "dot"; Str "-Kdot"; Str "-Tpng:cairo:gd"] ∧
  (∀ x, x ∈ ["png"; "cairo"; "gd"] ↔
        x = "png" ∨ Some "cairo" = Some x ∨ Some "gd" = Some x) ∧
  output_format "png" (Some "cairo") (Some "gd") = ["png"; "cairo"; "gd"] ∧
  suffix_elements (Some "gd") (Some "cairo") "png" =
    reverse ["png"; "cairo"; "gd"] ∧
  [Path "dot"; Str "-Kdot"; Str "-Tpng:cairo:gd"] =
    [DOT_BINARY; Str "-Kdot"; Str ("-T" +:+ Py.join ":" ["png"; "cairo"; "gd"])] ∧
  ∃ c, (render "dot" "png" "a/b/graph.gv" (Some "cairo") (Some "gd") false
          sample_world).1 =
         (runner c (lines sample_world)).1 ≫= λ _,
           Return (os_path.join "a/b"
                     ("graph.gv" +:+ "." +:+ Py.join "." ["gd"; "cairo"; "png"])).
Proof.
  assert (command "dot" "png" (Some "cairo") (Some "gd") =
            Return [Path "dot"; Str "-Kdot"; Str "-Tpng:cairo:gd"]) as Hc
    by (vm_compute; reflexivity).
  split; [exact Hc|].
  exact (output_format_suffix_mirrored "dot" "png" "a/b/graph.gv"
           (Some "cairo") (Some "gd") false _ sample_world Hc).
Defined.

Lemma render_invocation_witness :
  command "dot" "svg" None None = Return [Path "dot"; Str "-Kdot"; Str "-Tsvg"] ∧
  length [Path "dot"; Str "-Kdot"; Str "-Tsvg"] = 3%nat ∧
  Py.contains os_path.sep "graph.gv" = false ∧
  spawned (render "dot" "svg" "a/b/graph.gv" None None true sample_world).2 =
    spawned sample_world ++
    [ {| call_cmd := [Path "dot"; Str "-Kdot"; Str "-Tsvg"; Str "-O"; Str "graph.gv"];
         kw_capture_output := true; kw_cwd := Some "a/b"; kw_quiet := true;
         kw_input := None; kw_encoding := None; kw_input_lines := None |} ].
Proof.
  assert (command "dot" "svg" None None =
            Return [Path "dot"; Str "-Kdot"; Str "-Tsvg"]) as Hc
    by (vm_compute; reflexivity).
  split; [exact Hc|].
  exact (render_invocation "dot" "svg" "a/b/graph.gv" None None true _
           sample_world Hc).
Defined.

Lemma render_returns_path_witness :
  command "dot" "png" (Some "cairo") (Some "gd") =
    Return [Path "dot"; Str "-Kdot"; Str "-Tpng:cairo:gd"] ∧
  ((∃ head,
      "a/b//graph.gv" = head +:+ "graph.gv" ∧
      Py.contains os_path.sep "graph.gv" = false ∧
      (head = EmptyString ∨ Py.endswith os_path.sep head = true) ∧
      "a/b" = if Py.all_char os_path.sep head then head
              else Py.rstrip os_path.sep head) ∧
   (Py.truthy "a/b" = true →
      "a/b/graph.gv.gd.cairo.png" = os_path.join "a/b" "graph.gv.gd.cairo.png") ∧
   ∃ c, spawned (render "dot" "png" "a/b//graph.gv" (Some "cairo") (Some "gd")
                   false sample_world).2 =
          spawned sample_world ++ [c] ∧
        (render "dot" "png" "a/b//graph.gv" (Some "cairo") (Some "gd")
           false sample_world).1 =
          (runner c (lines sample_world)).1 ≫= λ _,
            Return "a/b/graph.gv.gd.cairo.png") ∧
  "dot" ∈ ENGINES ∧ "svg" ∈ FORMATS ∧
  (∃ c, spawned (render "dot" "svg" "a/b/graph.gv" None None false sample_world).2 =
          spawned sample_world ++ [c] ∧
        (render "dot" "svg" "a/b/graph.gv" None None false sample_world).1 =
          (runner c (lines sample_world)).1 ≫= λ _, Return "a/b/graph.gv.svg") ∧
  (render "dot" "png" "a/b//graph.gv" (Some "cairo") (Some "gd") false
     sample_world).1 = Return "a/b/graph.gv.gd.cairo.png" ∧
  (render "dot" "svg" "a/b/graph.gv" None None false sample_world).1 =
    Return "a/b/graph.gv.svg".
Proof.
  assert (command "dot" "png" (Some "cairo") (Some "gd") =
            Return [Path "dot"; Str "-Kdot"; Str "-Tpng:cairo:gd"]) as Hc
    by (vm_compute; reflexivity).
  assert ("dot" ∈ ENGINES) as He by evaluate.
  assert ("svg" ∈ FORMATS) as Hf by evaluate.
  split; [exact Hc|].
  split; [exact (proj1 (render_returns_path "dot" "png" "a/b//graph.gv"
                          (Some "cairo") (Some "gd") false sample_world) _ Hc)|].
  split; [exact He|]. split; [exact Hf|].
  split; [exact (proj2 (render_returns_path "dot" "svg" "a/b/graph.gv" None None
                          false sample_world) He Hf)|].
  split; vm_compute; reflexivity.
Defined.

Lemma validation_error_before_spawn_witness :
  validation_fails "not-a-real-engine" "svg" None None ∧
  ∃ e, command "not-a-real-engine" "svg" None None = Raise e ∧
    (∀ filepath quiet w,
       let r := render "not-a-real-engine" "svg" filepath None None quiet w in
       r.1 = Raise e ∧ spawned r.2 = spawned w) ∧
    (∀ data quiet w,
       let r := pipe "not-a-real-engine" "svg" data None None quiet w in
       r.1 = Raise e ∧ spawned r.2 = spawned w) ∧
    (∀ input_string encoding quiet w,
       let r := pipe_string "not-a-real-engine" "svg" input_string encoding
                  None None quiet w in
       r.1 = Raise e ∧ spawned r.2 = spawned w) ∧
    (∀ input_encoding quiet w,
       let r := pipe_lines "not-a-real-engine" "svg" input_encoding
                  None None quiet w in
       r.1 = Raise e ∧ spawned r.2 = spawned w) ∧
    (∀ encoding quiet w,
       let r := pipe_lines_string "not-a-real-engine" "svg" encoding
                  None None quiet w in
       r.1 = Raise e ∧ spawned r.2 = spawned w).
Proof.
  assert (validation_fails "not-a-real-engine" "svg" None None) as Hv
    by (right; left; evaluate).
  split; [exact Hv|].
  exact (validation_error_before_spawn "not-a-real-engine" "svg" None None Hv).
Defined.

Lemma validation_error_before_lines_witness :
  validation_fails "dot" "svg" None (Some "core") ∧
  ∃ e, command "dot" "svg" None (Some "core") = Raise e ∧
    (∀ input_encoding quiet w,
       let r := pipe_lines "dot" "svg" input_encoding None (Some "core") quiet w in
       r.1 = Raise e ∧ lines r.2 = lines w) ∧
    (∀ encoding quiet w,
       let r := pipe_lines_string "dot" "svg" encoding None (Some "core") quiet w in
       r.1 = Raise e ∧ lines r.2 = lines w).
Proof.
  assert (validation_fails "dot" "svg" None (Some "core")) as Hv
    by (left; split; [discriminate|reflexivity]).
  split; [exact Hv|].
  exact (validation_error_before_lines "dot" "svg" None (Some "core") Hv).
Defined.

Lemma quiet_noninterference_witness :
  quiet_insensitive ∧
  (∀ filepath, quiet_only_forwarded (render "dot" "svg" filepath None None)) ∧
  (∀ data, quiet_only_forwarded (pipe "dot" "svg" data None None)) ∧
  (∀ input_string encoding,
     quiet_only_forwarded (pipe_string "dot" "svg" input_string encoding None None)) ∧
  (∀ input_encoding,
     quiet_only_forwarded (pipe_lines "dot" "svg" input_encoding None None)) ∧
  (∀ encoding,
     quiet_only_forwarded (pipe_lines_string "dot" "svg" encoding None None)).
Proof.
  assert quiet_insensitive as Hq by (intros q c it; reflexivity).
  split; [exact Hq|].
  exact (quiet_noninterference "dot" "svg" None None Hq).
Defined.

End samples.

(** ** More on [os.path.split] and [os.path.join] *)

Section path_round_trip.

Lemma append_cons a r y : String a r +:+ y = String a (r +:+ y).
Proof. reflexivity. Qed.

Lemma append_nil_l y : EmptyString +:+ y = y.
Proof. reflexivity. Qed.

Lemma rfind_not_contains c s : Py.contains c s = false → Py.rfind c s = -1.
Proof.
  induction s as [|a r IH]; cbn; [done|].
  intros [Ha Hr]%orb_false_iff. rewrite (IH Hr), Ha. reflexivity.
Qed.

Lemma endswith_truthy c s : Py.endswith c s = true → Py.truthy s = true.
Proof. by destruct s. Qed.

(** The last [c] of [x + y] is the last character of [x] when [x] ends in
    [c] and [y] has none. *)
Lemma rfind_append c x y :
  Py.endswith c x = true → Py.contains c y = false →
  Py.rfind c (x +:+ y) = Z.of_nat (String.length x) - 1.
Proof.
  intros Hx Hy. induction x as [|a r IH]; [discriminate|].
  rewrite append_cons. cbn [Py.rfind String.length].
  destruct r as [|b r'].
  - cbn in Hx. change (EmptyString +:+ y) with y.
    rewrite (rfind_not_contains _ _ Hy), Hx. reflexivity.
  - rewrite IH by exact Hx.
    cbn [String.length]. destruct (Z.leb_spec 0 (Z.of_nat (S (String.length r')) - 1)); lia.
Qed.

Lemma substring_prefix x y : String.substring 0 (String.length x) (x +:+ y) = x.
Proof.
  induction x as [|a r IH]; [by destruct y|].
  rewrite append_cons. cbn. by rewrite IH.
Qed.

Lemma substring_all y : String.substring 0 (String.length y) y = y.
Proof. induction y as [|a r IH]; cbn; [done|]. by rewrite IH. Qed.

Lemma length_append x y :
  String.length (x +:+ y) = (String.length x + String.length y)%nat.
Proof.
  induction x as [|a r IH]; [reflexivity|].
  rewrite append_cons. cbn. by rewrite IH.
Qed.

Lemma substring_suffix x y :
  String.substring (String.length x)
    (String.length (x +:+ y) - String.length x) (x +:+ y) = y.
Proof.
  rewrite length_append.
  replace (String.length x + String.length y - String.length x)%nat
    with (String.length y) by lia.
  induction x as [|a r IH]; [apply substring_all|].
  rewrite append_cons. exact IH.
Qed.

(** [os.path.split] of a path that is a slash-terminated prefix followed by a
    slash-free name. *)
Lemma split_append x y :
  Py.endswith os_path.sep x = true → Py.contains os_path.sep y = false →
  os_path.split (x +:+ y) =
    (if Py.all_char os_path.sep x then x else Py.rstrip os_path.sep x, y).
Proof.
  intros Hx Hy. unfold os_path.split.
  rewrite (rfind_append _ _ _ Hx Hy).
  pose proof (endswith_truthy _ _ Hx) as Ht.
  assert (0 < String.length x)%nat as Hlen by (destruct x; [discriminate|cbn; lia]).
  replace (Z.of_nat (String.length x) - 1 + 1) with (Z.of_nat (String.length x)) by lia.
  unfold Py.slice_to, Py.slice_from. rewrite Nat2Z.id.
  rewrite substring_prefix, substring_suffix, Ht. cbn [andb].
  by destruct (Py.all_char os_path.sep x).
Qed.

(** [os.path.split] of a name without a slash. *)
Lemma split_no_sep p :
  Py.contains os_path.sep p = false → os_path.split p = (EmptyString, p).
Proof.
  intros Hp. unfold os_path.split. rewrite (rfind_not_contains _ _ Hp).
  change (-1 + 1) with 0. rewrite slice_from_0.
  unfold Py.slice_to. change (Z.to_nat 0) with 0%nat.
  by destruct p.
Qed.

Lemma endswith_append_char c d : Py.endswith c (d +:+ String c EmptyString) = true.
Proof.
  induction d as [|a r IH].
  - change (Py.endswith c (String c EmptyString) = true). cbn.
    apply Ascii.eqb_refl.
  - rewrite append_cons. destruct r as [|b r'].
    + change (Py.endswith c (String c EmptyString) = true). cbn.
      apply Ascii.eqb_refl.
    + rewrite append_cons in IH |- *. exact IH.
Qed.

Lemma all_char_append_char c d :
  Py.all_char c (d +:+ String c EmptyString) = Py.all_char c d.
Proof.
  induction d as [|a r IH].
  - rewrite append_nil_l. cbn. by rewrite Ascii.eqb_refl.
  - rewrite append_cons. cbn. by rewrite IH.
Qed.

Lemma rstrip_append_char c d :
  Py.rstrip c (d +:+ String c EmptyString) = Py.rstrip c d.
Proof.
  induction d as [|a r IH].
  - rewrite append_nil_l. cbn. by rewrite Ascii.eqb_refl.
  - rewrite append_cons. cbn. by rewrite IH.
Qed.

Lemma rstrip_id c d : Py.endswith c d = false → Py.rstrip c d = d.
Proof.
  induction d as [|a r IH]; [reflexivity|].
  intros Hd. cbn. destruct r as [|b r'].
  - cbn in *. by rewrite Hd.
  - rewrite IH by exact Hd. cbn [Py.truthy negb]. by rewrite andb_false_r.
Qed.

Lemma endswith_rstrip c s : Py.endswith c (Py.rstrip c s) = false.
Proof.
  induction s as [|a r IH]; [reflexivity|].
  cbn [Py.rstrip]. destruct (Ascii.eqb a c) eqn:Ha; cbn [andb].
  - destruct (Py.rstrip c r) as [|b r'] eqn:Hr; [reflexivity|].
    cbn [Py.truthy negb]. exact IH.
  - destruct (Py.rstrip c r) as [|b r'] eqn:Hr; [cbn; exact Ha|exact IH].
Qed.

Lemma all_char_endswith c s :
  Py.truthy s = true → Py.all_char c s = true → Py.endswith c s = true.
Proof.
  induction s as [|a r IH]; [discriminate|].
  intros _ [Ha Hr]%andb_true_iff. destruct r as [|b r']; [exact Ha|].
  apply IH; [reflexivity|exact Hr].
Qed.

Lemma not_endswith_not_all_char c s :
  Py.truthy s = true → Py.endswith c s = false → Py.all_char c s = false.
Proof.
  intros Ht He. destruct (Py.all_char c s) eqn:Ha; [|reflexivity].
  by rewrite (all_char_endswith _ _ Ht Ha) in He.
Qed.

Lemma append_assoc x y z : (x +:+ y) +:+ z = x +:+ y +:+ z.
Proof.
  induction x as [|a r IH]; [reflexivity|].
  rewrite !append_cons. by rewrite IH.
Qed.

(** [os.path.split] undoes the joining of a directory that does not end in a
    slash with a slash-free name. *)
Lemma split_dir_name d f :
  Py.truthy d = true → Py.endswith os_path.sep d = false →
  Py.contains os_path.sep f = false →
  os_path.split (d +:+ "/" +:+ f) = (d, f).
Proof.
  intros Ht Hd Hf.
  change (d +:+ "/" +:+ f) with (d +:+ String os_path.sep EmptyString +:+ f).
  rewrite <- append_assoc.
  rewrite split_append by (apply endswith_append_char || exact Hf).
  rewrite all_char_append_char, (not_endswith_not_all_char _ _ Ht Hd).
  by rewrite rstrip_append_char, rstrip_id.
Qed.

(** The directory that [os.path.split] returns consists of slashes only or
    does not end in a slash. *)
Lemma split_dirname_normal p :
  Py.all_char os_path.sep (os_path.split p).1 = true ∨
  Py.endswith os_path.sep (os_path.split p).1 = false.
Proof.
  unfold os_path.split. cbn [fst].
  set (head := Py.slice_to (Py.rfind os_path.sep p + 1) p).
  destruct (Py.truthy head) eqn:Ht; cbn [andb].
  - destruct (Py.all_char os_path.sep head) eqn:Ha; cbn [negb]; [by left|].
    right. apply endswith_rstrip.
  - right. by destruct head.
Qed.

Lemma contains_append c x y :
  Py.contains c (x +:+ y) = Py.contains c x || Py.contains c y.
Proof.
  induction x as [|a r IH]; [reflexivity|].
  rewrite append_cons. cbn. rewrite IH. by rewrite orb_assoc.
Qed.

(** Splitting the path that [render] builds: the slash-free [name] joined to
    the directory of [p] splits into that directory and [name]. *)
Lemma split_join_dirname p name :
  Py.contains os_path.sep name = false →
  let dirname := (os_path.split p).1 in
  os_path.split (if Py.truthy dirname then os_path.join dirname name else name)
    = (dirname, name).
Proof.
  intros Hname dirname.
  destruct (Py.truthy dirname) eqn:Ht.
  - unfold os_path.join.
    assert (Py.startswith os_path.sep name = false) as ->.
    { destruct (Py.startswith os_path.sep name) eqn:Hs; [|reflexivity].
      by rewrite (startswith_contains _ _ Hs) in Hname. }
    rewrite Ht. cbn [negb orb].
    destruct (Py.endswith os_path.sep dirname) eqn:He.
    + rewrite split_append by assumption.
      destruct (split_dirname_normal p) as [Ha|Hn].
      * fold dirname in Ha. by rewrite Ha.
      * fold dirname in Hn. congruence.
    + apply (split_dir_name dirname name Ht He Hname).
  - destruct dirname; [|discriminate]. by apply split_no_sep.
Qed.

End path_round_trip.

(** ** More on [command] *)

Section more_command_properties.
Context `{Common} `{Builtins}.

(** [command] returns exactly for the arguments that pass its five checks:
    no formatter without a renderer, engine and format in the registry,
    renderer and formatter in the registry when they are given; the result
    is then the binary, the engine flag and the output format flag. *)
Theorem command_accepts_iff engine format_ renderer formatter cmd :
  command engine format_ renderer formatter = Return cmd ↔
    (formatter = None ∨ renderer ≠ None) ∧
    engine ∈ ENGINES ∧ format_ ∈ FORMATS ∧
    (∀ r, renderer = Some r → r ∈ RENDERERS) ∧
    (∀ f, formatter = Some f → f ∈ FORMATTERS) ∧
    cmd = [DOT_BINARY; Str ("-K" +:+ engine);
           Str ("-T" +:+ Py.join ":" (output_format format_ renderer formatter))].
Proof. apply command_Return_iff. Qed.

(** Once the formatter-without-renderer test is passed, the value reported
    in the [ValueError] is the first one outside the registry in the order
    engine, format, renderer, formatter, whatever comes after it. *)
Theorem command_error_precedence engine format_ renderer formatter :
  (formatter = None ∨ renderer ≠ None) →
  (engine ∉ ENGINES →
     command engine format_ renderer formatter =
       Raise (ValueError ("unknown engine: " +:+ repr engine))) ∧
  (engine ∈ ENGINES → format_ ∉ FORMATS →
     command engine format_ renderer formatter =
       Raise (ValueError ("unknown format: " +:+ repr format_))) ∧
  (engine ∈ ENGINES → format_ ∈ FORMATS →
     ∀ r, renderer = Some r → r ∉ RENDERERS →
     command engine format_ renderer formatter =
       Raise (ValueError ("unknown renderer: " +:+ repr r))) ∧
  (engine ∈ ENGINES → format_ ∈ FORMATS →
     (∀ r, renderer = Some r → r ∈ RENDERERS) →
     ∀ f, formatter = Some f → f ∉ FORMATTERS →
     command engine format_ renderer formatter =
       Raise (ValueError ("unknown formatter: " +:+ repr f))).
Proof.
  intros Hpair. unfold command, raise_if.
  assert (is_not_None formatter && is_None renderer = false) as ->.
  { destruct formatter, renderer; try reflexivity. destruct Hpair; congruence. }
  cbn. split; [|split; [|split]].
  - intros He. by rewrite (bool_decide_eq_true_2 _ He).
  - intros He Hf.
    rewrite (bool_decide_eq_false_2 (engine ∉ ENGINES)) by (intros Hn; exact (Hn He)).
    cbn. by rewrite (bool_decide_eq_true_2 _ Hf).
  - intros He Hf r -> Hr.
    rewrite (bool_decide_eq_false_2 (engine ∉ ENGINES)) by (intros Hn; exact (Hn He)).
    cbn.
    rewrite (bool_decide_eq_false_2 (format_ ∉ FORMATS)) by (intros Hn; exact (Hn Hf)).
    cbn. by rewrite (bool_decide_eq_true_2 _ Hr).
  - intros He Hf Hr f -> Hft.
    rewrite (bool_decide_eq_false_2 (engine ∉ ENGINES)) by (intros Hn; exact (Hn He)).
    cbn.
    rewrite (bool_decide_eq_false_2 (format_ ∉ FORMATS)) by (intros Hn; exact (Hn Hf)).
    cbn. destruct renderer as [r|]; [|destruct Hpair; congruence].
    rewrite (bool_decide_eq_false_2 (r ∉ RENDERERS))
      by (intros Hn; exact (Hn (Hr r eq_refl))).
    cbn. by rewrite (bool_decide_eq_true_2 _ Hft).
Qed.

(** [command] raises nothing but its two exceptions: the
    [RequiredArgumentError], and then a formatter was given without a
    renderer, or a [ValueError] naming an argument that is outside the
    registry. *)
Theorem command_raises_only engine format_ renderer formatter e :
  command engine format_ renderer formatter = Raise e →
  (e = RequiredArgumentError "formatter given without renderer" ∧
   formatter ≠ None ∧ renderer = None) ∨
  (∃ kind v,
     e = ValueError ("unknown " +:+ kind +:+ ": " +:+ repr v) ∧
     ((kind = "engine" ∧ v = engine ∧ engine ∉ ENGINES) ∨
      (kind = "format" ∧ v = format_ ∧ format_ ∉ FORMATS) ∨
      (kind = "renderer" ∧ renderer = Some v ∧ v ∉ RENDERERS) ∨
      (kind = "formatter" ∧ formatter = Some v ∧ v ∉ FORMATTERS))).
Proof.
  intros He.
  destruct (decide (formatter ≠ None ∧ renderer = None)) as [[Hf Hr]|Hn].
  - left. rewrite (command_formatter_without_renderer_eq _ _ _ _ Hf Hr) in He.
    by injection He as <-.
  - right.
    assert (formatter = None ∨ renderer ≠ None) as Hpair.
    { destruct formatter, renderer; auto; by right. }
    assert (unknown_capability engine format_ renderer formatter) as Hu.
    { destruct (proj2 (command_Raise_iff engine format_ renderer formatter))
        as [Hp|Hu]; [eauto| |exact Hu].
      exfalso. exact (Hn Hp). }
    destruct (command_unknown_capability_eq _ _ _ _ Hpair Hu)
      as (kind & v & Hc & Hoff).
    exists kind, v. split; [congruence|exact Hoff].
Qed.

End more_command_properties.

(** Growing the registry, or changing [repr], does not change what
    [command] returns for arguments it already accepts. *)
Theorem command_registry_monotone (C C' : Common) (B B' : Builtins)
    engine format_ renderer formatter cmd :
  Common_subseteq C C' →
  @command C B engine format_ renderer formatter = Return cmd →
  @command C' B' engine format_ renderer formatter = Return cmd.
Proof.
  intros (HE & HF & HR & HT) Hc.
  apply command_Return_iff in Hc as (Hpair & He & Hf & Hr & Hft & ->).
  apply command_Return_iff. repeat split; auto.
Qed.

(** ** More on the entry points *)

Section more_rendering_properties.
Context `{Common} `{Builtins} {iterator : Type} `{Execute iterator}.

(** What follows from a run that makes the one runner call [c] and shapes
    its result with [k]. *)
Lemma once_through_runner {A} (r : outcome A * World iterator) c
    (k : CompletedProcess → outcome A) w :
  r = ((runner c (lines w)).1 ≫= k,
       {| spawned := spawned w ++ [c]; lines := (runner c (lines w)).2 |}) →
  spawned r.2 = spawned w ++ [c] ∧
  lines r.2 = (runner c (lines w)).2 ∧
  (∀ proc it, runner c (lines w) = (Return proc, it) → r.1 = k proc) ∧
  (∀ e it, runner c (lines w) = (Raise e, it) → r.1 = Raise e).
Proof.
  intros ->. cbn. repeat split; intros ? ? Hr; by rewrite Hr.
Qed.

(** For accepted arguments [pipe] makes one runner call: the argument list
    of [command] as it is, output captured, no working directory, [data] as
    the input bytes, no encoding and no line source. It returns the captured
    standard output of the runner, raises what the runner raises, and the
    line iterator is where the runner left it. *)
Theorem pipe_runs_once engine format data renderer formatter quiet cmd w :
  command engine format renderer formatter = Return cmd →
  let c := {| call_cmd := cmd; kw_capture_output := true; kw_cwd := None;
              kw_quiet := quiet; kw_input := Some (PyBytes data);
              kw_encoding := None; kw_input_lines := None |} in
  let r := pipe engine format data renderer formatter quiet w in
  spawned r.2 = spawned w ++ [c] ∧
  lines r.2 = (runner c (lines w)).2 ∧
  (∀ proc it, runner c (lines w) = (Return proc, it) →
     r.1 = Return (stdout proc)) ∧
  (∀ e it, runner c (lines w) = (Raise e, it) → r.1 = Raise e).
Proof.
  intros Hc c r. apply (once_through_runner r c (λ proc, Return (stdout proc))).
  apply (pipe_command_returns _ _ _ _ _ _ _ _ Hc).
Qed.

(** For accepted arguments [pipe_string] makes one runner call: the argument
    list of [command], output captured, no working directory,
    [input_string] as the input text together with [encoding], no line
    source. It returns the standard output of the runner and raises what the
    runner raises. *)
Theorem pipe_string_runs_once
    engine format input_string encoding renderer formatter quiet cmd w :
  command engine format renderer formatter = Return cmd →
  let c := {| call_cmd := cmd; kw_capture_output := true; kw_cwd := None;
              kw_quiet := quiet; kw_input := Some (PyStr input_string);
              kw_encoding := Some encoding; kw_input_lines := None |} in
  let r := pipe_string engine format input_string encoding
             renderer formatter quiet w in
  spawned r.2 = spawned w ++ [c] ∧
  lines r.2 = (runner c (lines w)).2 ∧
  (∀ proc it, runner c (lines w) = (Return proc, it) →
     r.1 = Return (stdout proc)) ∧
  (∀ e it, runner c (lines w) = (Raise e, it) → r.1 = Raise e).
Proof.
  intros Hc c r. apply (once_through_runner r c (λ proc, Return (stdout proc))).
  apply (pipe_string_command_returns _ _ _ _ _ _ _ _ _ Hc).
Qed.

(** For accepted arguments [pipe_lines] makes one runner call: the argument
    list of [command], output captured, no working directory, no input and
    no encoding for the output, and as line source the generator that
    encodes each line with [input_encoding]. It returns the standard output
    of the runner and raises what the runner raises; the iterator is
    advanced by the runner only. *)
Theorem pipe_lines_runs_once
    engine format input_encoding renderer formatter quiet cmd w :
  command engine format renderer formatter = Return cmd →
  let c := {| call_cmd := cmd; kw_capture_output := true; kw_cwd := None;
              kw_quiet := quiet; kw_input := None; kw_encoding := None;
              kw_input_lines := Some (EncodedLines input_encoding) |} in
  let r := pipe_lines engine format input_encoding renderer formatter quiet w in
  spawned r.2 = spawned w ++ [c] ∧
  lines r.2 = (runner c (lines w)).2 ∧
  (∀ proc it, runner c (lines w) = (Return proc, it) →
     r.1 = Return (stdout proc)) ∧
  (∀ e it, runner c (lines w) = (Raise e, it) → r.1 = Raise e).
Proof.
  intros Hc c r. apply (once_through_runner r c (λ proc, Return (stdout proc))).
  apply (pipe_lines_command_returns _ _ _ _ _ _ _ _ Hc).
Qed.

(** For accepted arguments [pipe_lines_string] makes one runner call: the
    argument list of [command], output captured, no working directory, no
    input, [encoding] for both directions, and the caller's iterator itself
    as line source. It returns the standard output of the runner and raises
    what the runner raises; the iterator is advanced by the runner only. *)
Theorem pipe_lines_string_runs_once
    engine format encoding renderer formatter quiet cmd w :
  command engine format renderer formatter = Return cmd →
  let c := {| call_cmd := cmd; kw_capture_output := true; kw_cwd := None;
              kw_quiet := quiet; kw_input := None;
              kw_encoding := Some encoding; kw_input_lines := Some Lines |} in
  let r := pipe_lines_string engine format encoding renderer formatter quiet w in
  spawned r.2 = spawned w ++ [c] ∧
  lines r.2 = (runner c (lines w)).2 ∧
  (∀ proc it, runner c (lines w) = (Return proc, it) →
     r.1 = Return (stdout proc)) ∧
  (∀ e it, runner c (lines w) = (Raise e, it) → r.1 = Raise e).
Proof.
  intros Hc c r. apply (once_through_runner r c (λ proc, Return (stdout proc))).
  apply (pipe_lines_string_command_returns _ _ _ _ _ _ _ _ Hc).
Qed.

(** Each entry point makes exactly one runner call when [command] accepts
    the arguments, whether the runner then returns or raises, and none when
    it does not: never two. *)
Theorem one_spawn_iff_accepted engine format renderer formatter :
  let n := match command engine format renderer formatter with
           | Return _ => 1%nat
           | Raise _ => 0%nat
           end in
  (∀ filepath quiet w,
     length (spawned (render engine format filepath renderer formatter quiet w).2)
       = (length (spawned w) + n)%nat) ∧
  (∀ data quiet w,
     length (spawned (pipe engine format data renderer formatter quiet w).2)
       = (length (spawned w) + n)%nat) ∧
  (∀ input_string encoding quiet w,
     length (spawned (pipe_string engine format input_string encoding
                        renderer formatter quiet w).2)
       = (length (spawned w) + n)%nat) ∧
  (∀ input_encoding quiet w,
     length (spawned (pipe_lines engine format input_encoding
                        renderer formatter quiet w).2)
       = (length (spawned w) + n)%nat) ∧
  (∀ encoding quiet w,
     length (spawned (pipe_lines_string engine format encoding
                        renderer formatter quiet w).2)
       = (length (spawned w) + n)%nat).
Proof.
  destruct (command engine format renderer formatter) as [cmd|e] eqn:Hc;
    intros n; subst n.
  - split; [|split; [|split; [|split]]]; intros.
    + rewrite (render_command_returns _ _ _ _ _ _ _ _ Hc). cbn.
      by rewrite length_app.
    + rewrite (pipe_command_returns _ _ _ _ _ _ _ _ Hc). cbn.
      by rewrite length_app.
    + rewrite (pipe_string_command_returns _ _ _ _ _ _ _ _ _ Hc). cbn.
      by rewrite length_app.
    + rewrite (pipe_lines_command_returns _ _ _ _ _ _ _ _ Hc). cbn.
      by rewrite length_app.
    + rewrite (pipe_lines_string_command_returns _ _ _ _ _ _ _ _ Hc). cbn.
      by rewrite length_app.
  - split; [|split; [|split; [|split]]]; intros.
    + rewrite (render_command_raises _ _ _ _ _ _ _ _ Hc). cbn. lia.
    + rewrite (pipe_command_raises _ _ _ _ _ _ _ _ Hc). cbn. lia.
    + rewrite (pipe_string_command_raises _ _ _ _ _ _ _ _ _ Hc). cbn. lia.
    + rewrite (pipe_lines_command_raises _ _ _ _ _ _ _ _ Hc). cbn. lia.
    + rewrite (pipe_lines_string_command_raises _ _ _ _ _ _ _ _ Hc). cbn. lia.
Qed.

(** For a file name without a slash, [render] runs the layout command
    without a working directory on that name and returns the name with a
    dot and the suffix appended. *)
Theorem render_bare_filename engine format filepath renderer formatter quiet cmd w :
  Py.contains os_path.sep filepath = false →
  command engine format renderer formatter = Return cmd →
  let suffix := Py.join "." (suffix_elements formatter renderer format) in
  let c := {| call_cmd := cmd ++ [Str "-O"; Str filepath];
              kw_capture_output := true; kw_cwd := None; kw_quiet := quiet;
              kw_input := None; kw_encoding := None; kw_input_lines := None |} in
  let r := render engine format filepath renderer formatter quiet w in
  spawned r.2 = spawned w ++ [c] ∧
  r.1 = (runner c (lines w)).1 ≫= λ _, Return (filepath +:+ "." +:+ suffix).
Proof.
  intros Hp Hc suffix c r. subst r.
  rewrite (render_command_returns _ _ _ _ _ _ _ _ Hc).
  rewrite (split_no_sep _ Hp). cbn. done.
Qed.

(** For a path [d/f] whose directory [d] is not empty and does not end in a
    slash and whose name [f] has no slash, [render] runs the layout command
    in [d] on [f] and returns the path itself with a dot and the suffix
    appended. *)
Theorem render_dir_filename engine format d f renderer formatter quiet cmd w :
  Py.truthy d = true → Py.endswith os_path.sep d = false →
  Py.contains os_path.sep f = false →
  command engine format renderer formatter = Return cmd →
  let filepath := d +:+ "/" +:+ f in
  let suffix := Py.join "." (suffix_elements formatter renderer format) in
  let c := {| call_cmd := cmd ++ [Str "-O"; Str f];
              kw_capture_output := true; kw_cwd := Some d; kw_quiet := quiet;
              kw_input := None; kw_encoding := None; kw_input_lines := None |} in
  let r := render engine format filepath renderer formatter quiet w in
  spawned r.2 = spawned w ++ [c] ∧
  r.1 = (runner c (lines w)).1 ≫= λ _, Return (filepath +:+ "." +:+ suffix).
Proof.
  intros Ht Hd Hf Hc filepath suffix c r. subst r filepath.
  rewrite (render_command_returns _ _ _ _ _ _ _ _ Hc).
  rewrite (split_dir_name _ _ Ht Hd Hf). cbn [fst snd]. cbv zeta.
  rewrite Ht. fold suffix.
  assert (os_path.join d (f +:+ "." +:+ suffix) =
          (d +:+ "/" +:+ f) +:+ "." +:+ suffix) as ->.
  { unfold os_path.join.
    assert (Py.startswith os_path.sep (f +:+ "." +:+ suffix) = false) as ->.
    { destruct f as [|a f']; [reflexivity|].
      cbn in Hf. apply orb_false_iff in Hf as [Ha _]. exact Ha. }
    rewrite Ht, Hd. cbn [negb orb].
    change (d +:+ "/" +:+ f) with (d +:+ String os_path.sep f).
    by rewrite append_assoc. }
  done.
Qed.

(** When the suffix has no slash in it, the path that [render] returns
    splits, by [os.path.split], into the directory of [filepath] and the
    name of [filepath] with a dot and the suffix appended: the rendered file
    is named beside the source file. *)
Theorem render_path_same_directory
    engine format filepath renderer formatter quiet cmd w :
  command engine format renderer formatter = Return cmd →
  let suffix := Py.join "." (suffix_elements formatter renderer format) in
  Py.contains os_path.sep suffix = false →
  ∃ c path,
    (render engine format filepath renderer formatter quiet w).1 =
      (runner c (lines w)).1 ≫= (λ _, Return path) ∧
    os_path.split path =
      ((os_path.split filepath).1, (os_path.split filepath).2 +:+ "." +:+ suffix).
Proof.
  intros Hc suffix Hs.
  rewrite (render_command_returns _ _ _ _ _ _ _ _ Hc). cbv zeta. cbn [fst].
  eexists _, _. split; [reflexivity|].
  apply split_join_dirname.
  rewrite !contains_append, split_filename_no_sep. exact Hs.
Qed.

End more_rendering_properties.

(** ** The further properties on the sample registry and runner *)

Section more_samples.
Local Existing Instances sample_common sample_builtins sample_execute.

Ltac evaluate := apply (bool_decide_unpack _); vm_compute; exact I.

Lemma command_error_precedence_witness :
  (Some "bogus" = None ∨ Some "cairro" ≠ None) ∧
  "dot" ∈ ENGINES ∧ "png" ∈ FORMATS ∧ ("cairro" ∉ RENDERERS) ∧
  command "dot" "png" (Some "cairro") (Some "bogus") =
    Raise (ValueError ("unknown renderer: " +:+ repr "cairro")).
Proof.
  assert (Some "bogus" = None ∨ Some "cairro" ≠ None) as Hpair
    by (right; discriminate).
  assert ("dot" ∈ ENGINES) as He by evaluate.
  assert ("png" ∈ FORMATS) as Hf by evaluate.
  assert ("cairro" ∉ RENDERERS) as Hr by evaluate.
  repeat (split; [assumption|]).
  exact (proj1 (proj2 (proj2
    (command_error_precedence "dot" "png" (Some "cairro") (Some "bogus") Hpair)))
    He Hf "cairro" eq_refl Hr).
Defined.

Lemma command_raises_only_witness :
  command "dot" "jpeg" None None = Raise (ValueError "unknown format: 'jpeg'") ∧
  ((ValueError "unknown format: 'jpeg'" =
      RequiredArgumentError "formatter given without renderer" ∧
    @None string ≠ None ∧ @None string = None) ∨
   (∃ kind v,
      ValueError "unknown format: 'jpeg'" =
        ValueError ("unknown " +:+ kind +:+ ": " +:+ repr v) ∧
      ((kind = "engine" ∧ v = "dot" ∧ "dot" ∉ ENGINES) ∨
       (kind = "format" ∧ v = "jpeg" ∧ "jpeg" ∉ FORMATS) ∨
       (kind = "renderer" ∧ None = Some v ∧ v ∉ RENDERERS) ∨
       (kind = "formatter" ∧ None = Some v ∧ v ∉ FORMATTERS)))).
Proof.
  assert (command "dot" "jpeg" None None =
            Raise (ValueError "unknown format: 'jpeg'")) as Hc
    by (vm_compute; reflexivity).
  split; [exact Hc|].
  exact (command_raises_only "dot" "jpeg" None None _ Hc).
Defined.

Lemma command_registry_monotone_witness :
  Common_subseteq sample_common sample_common_wide ∧
  @command sample_common sample_builtins "dot" "png" (Some "cairo") None =
    Return [Path "dot"; Str "-Kdot"; Str "-Tpng:cairo"] ∧
  @command sample_common_wide sample_builtins "dot" "png" (Some "cairo") None =
    Return [Path "dot"; Str "-Kdot"; Str "-Tpng:cairo"].
Proof.
  assert (Common_subseteq sample_common sample_common_wide) as Hsub.
  { unfold Common_subseteq. split; [|split; [|split]]; evaluate. }
  assert (@command sample_common sample_builtins "dot" "png" (Some "cairo") None =
            Return [Path "dot"; Str "-Kdot"; Str "-Tpng:cairo"]) as Hc
    by (vm_compute; reflexivity).
  split; [exact Hsub|]. split; [exact Hc|].
  exact (command_registry_monotone sample_common sample_common_wide
           sample_builtins sample_builtins _ _ _ _ _ Hsub Hc).
Defined.

Lemma pipe_runs_once_witness :
  command "dot" "svg" None None = Return [Path "dot"; Str "-Kdot"; Str "-Tsvg"] ∧
  let c := {| call_cmd := [Path "dot"; Str "-Kdot"; Str "-Tsvg"];
              kw_capture_output := true; kw_cwd := None; kw_quiet := false;
              kw_input := Some (PyBytes []); kw_encoding := None;
              kw_input_lines := None |} in
  let r := pipe "dot" "svg" [] None None false sample_world in
  spawned r.2 = spawned sample_world ++ [c] ∧
  lines r.2 = (runner c (lines sample_world)).2 ∧
  (∀ proc it, runner c (lines sample_world) = (Return proc, it) →
     r.1 = Return (stdout proc)) ∧
  (∀ e it, runner c (lines sample_world) = (Raise e, it) → r.1 = Raise e).
Proof.
  assert (command "dot" "svg" None None =
            Return [Path "dot"; Str "-Kdot"; Str "-Tsvg"]) as Hc
    by (vm_compute; reflexivity).
  split; [exact Hc|].
  exact (pipe_runs_once "dot" "svg" [] None None false _ sample_world Hc).
Defined.

Lemma pipe_string_runs_once_witness :
  command "dot" "svg" None None = Return [Path "dot"; Str "-Kdot"; Str "-Tsvg"] ∧
  let c := {| call_cmd := [Path "dot"; Str "-Kdot"; Str "-Tsvg"];
              kw_capture_output := true; kw_cwd := None; kw_quiet := false;
              kw_input := Some (PyStr "graph { spam }");
              kw_encoding := Some "ascii"; kw_input_lines := None |} in
  let r := pipe_string "dot" "svg" "graph { spam }" "ascii" None None false
             sample_world in
  spawned r.2 = spawned sample_world ++ [c] ∧
  lines r.2 = (runner c (lines sample_world)).2 ∧
  (∀ proc it, runner c (lines sample_world) = (Return proc, it) →
     r.1 = Return (stdout proc)) ∧
  (∀ e it, runner c (lines sample_world) = (Raise e, it) → r.1 = Raise e).
Proof.
  assert (command "dot" "svg" None None =
            Return [Path "dot"; Str "-Kdot"; Str "-Tsvg"]) as Hc
    by (vm_compute; reflexivity).
  split; [exact Hc|].
  exact (pipe_string_runs_once "dot" "svg" "graph { spam }" "ascii" None None
           false _ sample_world Hc).
Defined.

Lemma pipe_lines_runs_once_witness :
  command "dot" "svg" None None = Return [Path "dot"; Str "-Kdot"; Str "-Tsvg"] ∧
  let c := {| call_cmd := [Path "dot"; Str "-Kdot"; Str "-Tsvg"];
              kw_capture_output := true; kw_cwd := None; kw_quiet := false;
              kw_input := None; kw_encoding := None;
              kw_input_lines := Some (EncodedLines "ascii") |} in
  let r := pipe_lines "dot" "svg" "ascii" None None false sample_world in
  spawned r.2 = spawned sample_world ++ [c] ∧
  lines r.2 = (runner c (lines sample_world)).2 ∧
  (∀ proc it, runner c (lines sample_world) = (Return proc, it) →
     r.1 = Return (stdout proc)) ∧
  (∀ e it, runner c (lines sample_world) = (Raise e, it) → r.1 = Raise e).
Proof.
  assert (command "dot" "svg" None None =
            Return [Path "dot"; Str "-Kdot"; Str "-Tsvg"]) as Hc
    by (vm_compute; reflexivity).
  split; [exact Hc|].
  exact (pipe_lines_runs_once "dot" "svg" "ascii" None None false _
           sample_world Hc).
Defined.

Lemma pipe_lines_string_runs_once_witness :
  command "dot" "svg" None None = Return [Path "dot"; Str "-Kdot"; Str "-Tsvg"] ∧
  let c := {| call_cmd := [Path "dot"; Str "-Kdot"; Str "-Tsvg"];
              kw_capture_output := true; kw_cwd := None; kw_quiet := false;
              kw_input := None; kw_encoding := Some "ascii";
              kw_input_lines := Some Lines |} in
  let r := pipe_lines_string "dot" "svg" "ascii" None None false sample_world in
  spawned r.2 = spawned sample_world ++ [c] ∧
  lines r.2 = (runner c (lines sample_world)).2 ∧
  (∀ proc it, runner c (lines sample_world) = (Return proc, it) →
     r.1 = Return (stdout proc)) ∧
  (∀ e it, runner c (lines sample_world) = (Raise e, it) → r.1 = Raise e).
Proof.
  assert (command "dot" "svg" None None =
            Return [Path "dot"; Str "-Kdot"; Str "-Tsvg"]) as Hc
    by (vm_compute; reflexivity).
  split; [exact Hc|].
  exact (pipe_lines_string_runs_once "dot" "svg" "ascii" None None false _
           sample_world Hc).
Defined.

Lemma render_bare_filename_witness :
  Py.contains os_path.sep "graph.gv" = false ∧
  command "dot" "png" (Some "cairo") None =
    Return [Path "dot"; Str "-Kdot"; Str "-Tpng:cairo"] ∧
  let c := {| call_cmd := [Path "dot"; Str "-Kdot"; Str "-Tpng:cairo";
                           Str "-O"; Str "graph.gv"];
              kw_capture_output := true; kw_cwd := None; kw_quiet := false;
              kw_input := None; kw_encoding := None; kw_input_lines := None |} in
  let r := render "dot" "png" "graph.gv" (Some "cairo") None false sample_world in
  spawned r.2 = spawned sample_world ++ [c] ∧
  r.1 = (runner c (lines sample_world)).1 ≫= λ _, Return "graph.gv.cairo.png".
Proof.
  assert (command "dot" "png" (Some "cairo") None =
            Return [Path "dot"; Str "-Kdot"; Str "-Tpng:cairo"]) as Hc
    by (vm_compute; reflexivity).
  split; [reflexivity|]. split; [exact Hc|].
  exact (render_bare_filename "dot" "png" "graph.gv" (Some "cairo") None false _
           sample_world eq_refl Hc).
Defined.

Lemma render_dir_filename_witness :
  Py.truthy "a/b" = true ∧ Py.endswith os_path.sep "a/b" = false ∧
  Py.contains os_path.sep "graph.gv" = false ∧
  command "dot" "svg" None None = Return [Path "dot"; Str "-Kdot"; Str "-Tsvg"] ∧
  let c := {| call_cmd := [Path "dot"; Str "-Kdot"; Str "-Tsvg";
                           Str "-O"; Str "graph.gv"];
              kw_capture_output := true; kw_cwd := Some "a/b"; kw_quiet := false;
              kw_input := None; kw_encoding := None; kw_input_lines := None |} in
  let r := render "dot" "svg" "a/b/graph.gv" None None false sample_world in
  spawned r.2 = spawned sample_world ++ [c] ∧
  r.1 = (runner c (lines sample_world)).1 ≫= λ _, Return "a/b/graph.gv.svg".
Proof.
  assert (command "dot" "svg" None None =
            Return [Path "dot"; Str "-Kdot"; Str "-Tsvg"]) as Hc
    by (vm_compute; reflexivity).
  split; [reflexivity|]. split; [reflexivity|]. split; [reflexivity|].
  split; [exact Hc|].
  exact (render_dir_filename "dot" "svg" "a/b" "graph.gv" None None false _
           sample_world eq_refl eq_refl eq_refl Hc).
Defined.

Lemma render_path_same_directory_witness :
  command "dot" "png" (Some "cairo") (Some "gd") =
    Return [Path "dot"; Str "-Kdot"; Str "-Tpng:cairo:gd"] ∧
  Py.contains os_path.sep "gd.cairo.png" = false ∧
  ∃ c path,
    (render "dot" "png" "/srv//graphs///g.gv" (Some "cairo") (Some "gd") false
       sample_world).1 =
      (runner c (lines sample_world)).1 ≫= (λ _, Return path) ∧
    os_path.split path = ("/srv//graphs", "g.gv.gd.cairo.png").
Proof.
  assert (command "dot" "png" (Some "cairo") (Some "gd") =
            Return [Path "dot"; Str "-Kdot"; Str "-Tpng:cairo:gd"]) as Hc
    by (vm_compute; reflexivity).
  split; [exact Hc|]. split; [reflexivity|].
  exact (render_path_same_directory "dot" "png" "/srv//graphs///g.gv"
           (Some "cairo") (Some "gd") false _ sample_world Hc eq_refl).
Defined.

End more_samples.
